(** * NLDataQuery: the natural-language finance-data query tool

    A shallow embedding of [src/whm_test1/original version.py] (class
    [NLDataQuery]: [call_deepseek], [execute_code], [save_result], [query])
    and the properties of its query-dispatch protocol. The bodies of
    [call_deepseek] and [execute_code] in [src/whm_test1/test_imporve.py]
    are the same text.

    Python values are embedded as follows.
    - A [str] is the list of its Unicode code points ([pystr]).
    - A [dict] with string keys is a [gmap pystr _].
    - A call that may raise returns [Ok v] or [Raise e]; a method of the
      instance is a function on the instance state that also appends to the
      log of its effects (console output, HTTP requests, [exec] calls, file
      writes).
    - The remote endpoint, Python's [exec] and the operating system are not
      part of the repository: they are parameters of the model ([world]).

    What the model takes for granted: the collaborators answer as
    functions of their arguments; [exec] ends (by itself or by an
    exception) and touches nothing of the program but the local namespace
    it is given; [console.print] and [console.status] succeed. *)

From Stdlib Require Import NArith ZArith Ascii String Lia.
From stdpp Require Import base option list gmap strings pretty.

Local Open Scope list_scope.
Local Open Scope N_scope.

(** ** Python strings *)

Module PyStr.

(** A Python [str]: its code points, in order. *)
Definition pystr : Type := list N.

(** Decoding of a UTF-8 source literal into its code points. *)
Fixpoint utf8_decode (bs : list N) : pystr :=
  match bs with
  | [] => []
  | b :: r =>
      if b <? 0x80 then b :: utf8_decode r
      else if b <? 0xE0 then
        match r with
        | b1 :: r1 => ((b - 0xC0) * 64 + (b1 - 0x80)) :: utf8_decode r1
        | _ => []
        end
      else if b <? 0xF0 then
        match r with
        | b1 :: b2 :: r2 =>
            ((b - 0xE0) * 4096 + (b1 - 0x80) * 64 + (b2 - 0x80)) :: utf8_decode r2
        | _ => []
        end
      else
        match r with
        | b1 :: b2 :: b3 :: r3 =>
            ((b - 0xF0) * 262144 + (b1 - 0x80) * 4096 + (b2 - 0x80) * 64 + (b3 - 0x80))
              :: utf8_decode r3
        | _ => []
        end
  end.

(** [py "text"] is the Python literal ["text"]. *)
Definition py (s : string) : pystr :=
  utf8_decode (map N_of_ascii (list_ascii_of_string s)).

(** [str.isspace] on one code point (CPython's [Py_UNICODE_ISSPACE]): the
    characters [str.strip()] removes. *)
Definition isspace (c : N) : bool :=
  ((0x09 <=? c) && (c <=? 0x0D)) || ((0x1C <=? c) && (c <=? 0x20))
  || (c =? 0x85) || (c =? 0xA0) || (c =? 0x1680)
  || ((0x2000 <=? c) && (c <=? 0x200A))
  || (c =? 0x2028) || (c =? 0x2029) || (c =? 0x202F) || (c =? 0x205F)
  || (c =? 0x3000).

Fixpoint drop_spaces (s : pystr) : pystr :=
  match s with
  | [] => []
  | c :: r => if isspace c then drop_spaces r else s
  end.

(** [s.lstrip()], [s.rstrip()], [s.strip()]. *)
Definition lstrip (s : pystr) : pystr := drop_spaces s.
Definition rstrip (s : pystr) : pystr := rev (drop_spaces (rev s)).
Definition strip (s : pystr) : pystr := rstrip (lstrip s).

(** [s.startswith(p)]. *)
Fixpoint startswith (s p : pystr) {struct p} : bool :=
  match p, s with
  | [], _ => true
  | _ :: _, [] => false
  | a :: p', b :: s' => (a =? b) && startswith s' p'
  end.

(** [p in s] for two strings: [p] occurs in [s] as a contiguous run. *)
Fixpoint contains (p s : pystr) : bool :=
  startswith s p ||
  match s with
  | [] => false
  | _ :: s' => contains p s'
  end.

(** [s.endswith(p)]. *)
Definition endswith (s p : pystr) : bool := startswith (rev s) (rev p).

(** [a == b] on strings. *)
Definition str_eqb (a b : pystr) : bool := bool_decide (a = b).

(** Truthiness of an [Optional[str]]: [None] and [""] are false. *)
Definition truthy (o : option pystr) : bool :=
  match o with
  | Some (_ :: _) => true
  | _ => false
  end.

End PyStr.
Export PyStr.

(** ** Python objects, exceptions and the decoded JSON response *)

Module PyObj.

(** A raised exception: its class, whether the class derives from
    [Exception] (an [except Exception] clause catches it), and [str(e)]. *)
Record py_exception : Type := mk_exception {
  exc_type : pystr;
  exc_is_Exception : bool;
  exc_str : pystr
}.

Definition TypeError (msg : pystr) : py_exception := mk_exception (py "TypeError") true msg.
Definition KeyError (msg : pystr) : py_exception := mk_exception (py "KeyError") true msg.
Definition IndexError (msg : pystr) : py_exception := mk_exception (py "IndexError") true msg.
Definition AttributeError (msg : pystr) : py_exception := mk_exception (py "AttributeError") true msg.
Definition NameError (msg : pystr) : py_exception := mk_exception (py "NameError") true msg.
Definition RequestException (msg : pystr) : py_exception :=
  mk_exception (py "requests.exceptions.RequestException") true msg.
Definition JSONDecodeError (msg : pystr) : py_exception :=
  mk_exception (py "requests.exceptions.JSONDecodeError") true msg.
(** [SystemExit] derives from [BaseException] only. *)
Definition SystemExit (msg : pystr) : py_exception := mk_exception (py "SystemExit") false msg.

(** The result of a call: a value, or an exception on its way up. *)
Inductive outcome (A : Type) : Type :=
| Ok (a : A)
| Raise (e : py_exception).
Arguments Ok {A} a.
Arguments Raise {A} e.

#[global] Instance outcome_ret : MRet outcome := fun A a => Ok a.
#[global] Instance outcome_bind : MBind outcome := fun A B k o =>
  match o with
  | Ok a => k a
  | Raise e => Raise e
  end.

(** A [pandas.DataFrame]: its column labels and its rows. *)
Record dataframe : Type := mk_dataframe {
  df_columns : list pystr;
  df_rows : list (list pystr)
}.

(** The objects an evaluated expression can return, as far as [query]
    tells them apart ([isinstance(result, str)],
    [isinstance(result, pd.DataFrame)], [is None]). *)
Inductive pyval : Type :=
| VNone
| VBool (b : bool)
| VInt (z : Z)
| VStr (s : pystr)
| VDataFrame (df : dataframe)
| VModule (name : pystr)
| VObject (name : pystr).

(** A namespace: the [dict] that maps names to objects. *)
Abbreviation namespace := (gmap pystr pyval).

(** What [response.json()] decodes to. *)
#[warnings="-register-all"]
Inductive json : Type :=
| JNull
| JBool (b : bool)
| JInt (z : Z)
| JFloat (literal : pystr)
| JStr (s : pystr)
| JList (l : list json)
| JDict (d : gmap pystr json).

Definition type_name (j : json) : pystr :=
  match j with
  | JNull => py "NoneType"
  | JBool _ => py "bool"
  | JInt _ => py "int"
  | JFloat _ => py "float"
  | JStr _ => py "str"
  | JList _ => py "list"
  | JDict _ => py "dict"
  end.

(** [key in j] for a [str] key. *)
Definition py_in (key : pystr) (j : json) : outcome bool :=
  match j with
  | JDict d => Ok (bool_decide (is_Some (d !! key)))
  | JList l =>
      Ok (existsb (fun x => match x with JStr s => str_eqb key s | _ => false end) l)
  | JStr s => Ok (contains key s)
  | _ => Raise (TypeError (py "argument of type '" ++ type_name j ++ py "' is not iterable"))
  end.

(** [j[key]] for a [str] key. *)
Definition getitem (j : json) (key : pystr) : outcome json :=
  match j with
  | JDict d =>
      match d !! key with
      | Some v => Ok v
      | None => Raise (KeyError (py "'" ++ key ++ py "'"))
      end
  | JList _ => Raise (TypeError (py "list indices must be integers or slices, not str"))
  | JStr _ => Raise (TypeError (py "string indices must be integers, not 'str'"))
  | _ => Raise (TypeError (py "'" ++ type_name j ++ py "' object is not subscriptable"))
  end.

(** [j[0]]. *)
Definition getitem_0 (j : json) : outcome json :=
  match j with
  | JList (x :: _) => Ok x
  | JList [] => Raise (IndexError (py "list index out of range"))
  | JStr (c :: _) => Ok (JStr [c])
  | JStr [] => Raise (IndexError (py "string index out of range"))
  | JDict _ => Raise (KeyError (py "0"))
  | _ => Raise (TypeError (py "'" ++ type_name j ++ py "' object is not subscriptable"))
  end.

(** [len(j)]. *)
Definition py_len (j : json) : outcome nat :=
  match j with
  | JList l => Ok (length l)
  | JStr s => Ok (length s)
  | JDict d => Ok (size d)
  | _ => Raise (TypeError (py "object of type '" ++ type_name j ++ py "' has no len()"))
  end.

(** [j.strip()]: only a [str] has the method. *)
Definition strip_method (j : json) : outcome pystr :=
  match j with
  | JStr s => Ok (strip s)
  | _ => Raise (AttributeError (py "'" ++ type_name j ++ py "' object has no attribute 'strip'"))
  end.

End PyObj.
Export PyObj.

(** ** The world outside the program *)

Module World.

(** What [requests.post(...)] followed by [response.json()] can give:
    the request fails, or a response arrives with a status code and a
    body that decodes as JSON or does not. *)
Inductive response_body : Type :=
| NotJson (msg : pystr)
| Json (j : json).

Inductive post_outcome : Type :=
| ConnectionFails (msg : pystr)
| Responds (status_code : Z) (body : response_body).

(** What [exec(source, globals, locals)] can do: run to the end, leaving
    the local namespace [l'], or raise. *)
Inductive exec_outcome : Type :=
| ExecDone (l' : namespace)
| ExecRaised (e : py_exception).

(** The collaborators of the program. [requests_post key prompt] is the
    chat-completion request of [call_deepseek] for the user text [prompt]
    sent with the bearer token [key]; [py_exec] is Python's [exec]; the
    rest is what [save_result] reads from the operating system
    ([now_strftime] is [datetime.datetime.now().strftime(...)], [isalnum]
    is [str.isalnum] on one character) and the path of the running
    script. *)
Record world : Type := mk_world {
  requests_post : pystr -> pystr -> post_outcome;
  py_exec : pystr -> namespace -> namespace -> exec_outcome;
  path_exists : pystr -> bool;
  makedirs : pystr -> option py_exception;
  write_file : pystr -> option py_exception;
  abspath : pystr -> pystr;
  now_strftime : pystr;
  isalnum : N -> bool;
  script_file : pystr
}.

End World.
Export World.

(** ** The program *)

Module Program.

(** The fields of an [NLDataQuery] instance ([__init__], lines 27-31). *)
Record NLDataQuery : Type := mk_instance {
  deepseek_api_key : pystr;
  debug_mode : bool;
  last_result : pyval;
  last_query : option pystr
}.

(** What is handed to [console.print]: markup text, [Markdown(text)], the
    table [format_dataframe(df)], [str(v)] of an object, or a [Panel]. *)
Inductive renderable : Type :=
| RText (s : pystr)
| RMarkdown (s : pystr)
| RTable (df : dataframe)
| RStr (v : pyval)
| RPanel (body : renderable) (title border_style : pystr).

(** The effects of the program, in the order they happen. *)
Inductive event : Type :=
| ConsoleStatus (msg : pystr)
| ConsolePrint (r : renderable)
| HttpPost (key prompt : pystr)
| ExecCall (source : pystr) (globals locals : namespace)
| Makedirs (path : pystr)
| ToCsv (path : pystr) (df : dataframe)
| FileWrite (path : pystr) (v : pyval).

Record state : Type := mk_state {
  self : NLDataQuery;
  log : list event
}.

(** A method body: it reads and updates the instance, appends to the log,
    and returns or raises. *)
Definition M (A : Type) : Type := state -> outcome A * state.

#[global] Instance M_ret : MRet M := fun A a s => (Ok a, s).
#[global] Instance M_bind : MBind M := fun A B k m s =>
  match m s with
  | (Ok a, s') => k a s'
  | (Raise e, s') => (Raise e, s')
  end.

Definition raise {A : Type} (e : py_exception) : M A := fun s => (Raise e, s).

Definition lift {A : Type} (o : outcome A) : M A := fun s => (o, s).

Definition emit (ev : event) : M unit :=
  fun s => (Ok tt, mk_state (self s) (log s ++ [ev])).

Definition console_print (r : renderable) : M unit := emit (ConsolePrint r).

Definition get_self : M NLDataQuery := fun s => (Ok (self s), s).

Definition set_last_result (v : pyval) : M unit :=
  fun s =>
    let me := self s in
    (Ok tt, mk_state (mk_instance (deepseek_api_key me) (debug_mode me) v (last_query me)) (log s)).

Definition set_last_query (q : option pystr) : M unit :=
  fun s =>
    let me := self s in
    (Ok tt, mk_state (mk_instance (deepseek_api_key me) (debug_mode me) (last_result me) q) (log s)).

(** [try: body except Exception as e: handler e]: what [body] did before
    it raised stays done; an exception outside [Exception] goes on up. *)
Definition try_except {A : Type} (body : M A) (handler : py_exception -> M A) : M A :=
  fun s =>
    match body s with
    | (Ok a, s') => (Ok a, s')
    | (Raise e, s') => if exc_is_Exception e then handler e s' else (Raise e, s')
    end.

(** The tagging of the model's reply (lines 112-119). *)
Definition tag_content (content : pystr) : option pystr * option pystr :=
  if startswith content (py "CODE|") then
    (Some (py "code"), Some (strip (drop 5 content)))
  else if startswith content (py "EXPLAIN|") then
    (Some (py "explain"), Some (strip (drop 8 content)))
  else
    (Some (py "code"), Some content).

(** The reading of the decoded response (lines 109-121); an exception
    raised on the way is caught by the caller's [except]. *)
Definition read_choices (response_json : json) : outcome (option pystr * option pystr) :=
  has_choices ← py_in (py "choices") response_json;
  nonempty ←
    (if has_choices : bool then
       choices ← getitem response_json (py "choices");
       n ← py_len choices;
       mret (bool_decide (0 < n)%nat)
     else mret false);
  if nonempty : bool then
    choices ← getitem response_json (py "choices");
    first ← getitem_0 choices;
    message ← getitem first (py "message");
    content_field ← getitem message (py "content");
    content ← strip_method content_field;
    mret (tag_content content)
  else mret (None, None).

(** [os.path.join(folder, name)] on a POSIX system, for a [folder] that
    does not end in a slash. *)
Definition os_path_join (folder name : pystr) : pystr :=
  if startswith name (py "/") then name else folder ++ py "/" ++ name.

Section Methods.

Variable w : world.

(** The module's global namespace, [globals()]: the names the interpreter
    sets for a script and those bound at module level (lines 1-18, 20,
    262). *)
Definition module_globals : namespace :=
  list_to_map
    [ (py "__name__", VStr (py "__main__"));
      (py "__doc__", VNone);
      (py "__package__", VNone);
      (py "__loader__", VObject (py "SourceFileLoader"));
      (py "__spec__", VNone);
      (py "__annotations__", VObject (py "dict"));
      (py "__builtins__", VModule (py "builtins"));
      (py "__file__", VStr (script_file w));
      (py "__cached__", VNone);
      (py "os", VModule (py "os"));
      (py "ak", VModule (py "akshare"));
      (py "requests", VModule (py "requests"));
      (py "datetime", VModule (py "datetime"));
      (py "pd", VModule (py "pandas"));
      (py "load_dotenv", VObject (py "dotenv.load_dotenv"));
      (py "Dict", VObject (py "typing.Dict"));
      (py "Any", VObject (py "typing.Any"));
      (py "Optional", VObject (py "typing.Optional"));
      (py "Tuple", VObject (py "typing.Tuple"));
      (py "Console", VObject (py "rich.console.Console"));
      (py "Panel", VObject (py "rich.panel.Panel"));
      (py "Table", VObject (py "rich.table.Table"));
      (py "Markdown", VObject (py "rich.markdown.Markdown"));
      (py "box", VModule (py "rich.box"));
      (py "console", VObject (py "console"));
      (py "NLDataQuery", VObject (py "NLDataQuery"));
      (py "main", VObject (py "main")) ].

(** [local_vars] of [execute_code] (line 130). *)
Definition local_vars : namespace :=
  list_to_map
    [ (py "ak", VModule (py "akshare"));
      (py "pd", VModule (py "pandas"));
      (py "datetime", VModule (py "datetime")) ].

(** [requests.post(...)] and [response.json()] (lines 100-107). *)
Definition post_json (key prompt : pystr) : M json :=
  emit (HttpPost key prompt);;
  match requests_post w key prompt with
  | ConnectionFails msg => raise (RequestException msg)
  | Responds _ (NotJson msg) => raise (JSONDecodeError msg)
  | Responds _ (Json j) => mret j
  end.

(** [call_deepseek] (lines 36-125). *)
Definition call_deepseek (prompt : pystr) : M (option pystr * option pystr) :=
  try_except
    (me ← get_self;
     response_json ← post_json (deepseek_api_key me) prompt;
     lift (read_choices response_json))
    (fun e =>
       console_print (RText (py "[red]✗[/red] API调用失败: " ++ exc_str e));;
       mret (None, None)).

(** [execute_code] (lines 127-134). *)
Definition execute_code (code : pystr) : M pyval :=
  try_except
    (let source := py "result = " ++ code in
     emit (ExecCall source module_globals local_vars);;
     match py_exec w source module_globals local_vars with
     | ExecDone l' => mret (default VNone (l' !! py "result"))
     | ExecRaised e => raise e
     end)
    (fun e => mret (VStr (py "执行出错: " ++ exc_str e))).

(** [save_result] (lines 163-201). *)
Definition save_result (filename : option pystr) : M unit :=
  me ← get_self;
  match last_result me with
  | VNone => console_print (RText (py "[yellow]⚠ 没有可保存的数据[/yellow]"))
  | result =>
      try_except
        (let data_folder := py "data" in
         (if path_exists w data_folder then mret tt
          else
            emit (Makedirs data_folder);;
            match makedirs w data_folder with
            | Some e => raise e
            | None => mret tt
            end);;
         filename ←
           match filename with
           | Some f => mret f
           | None =>
               q ← match last_query me with
                   | Some q => mret q
                   | None => raise (TypeError (py "'NoneType' object is not iterable"))
                   end;
               let clean_query :=
                 filter (fun c => Is_true (isalnum w c || bool_decide (c ∈ py "._- 中文"))) q in
               let clean_query := take 30 clean_query in
               mret (clean_query ++ py "_" ++ now_strftime w ++ py ".csv")
           end;
         let filename :=
           if endswith filename (py ".csv") then filename else filename ++ py ".csv" in
         let filepath := os_path_join data_folder filename in
         emit (match result with
               | VDataFrame df => ToCsv filepath df
               | _ => FileWrite filepath result
               end);;
         match write_file w filepath with
         | Some e => raise e
         | None =>
             console_print
               (RText (py "[green]✓ 数据已保存到: " ++ abspath w filepath ++ py "[/green]"))
         end)
        (fun e => console_print (RText (py "[red]✗ 保存失败: " ++ exc_str e ++ py "[/red]")))
  end.

(** [query] (lines 203-260). *)
Definition query (natural_language : pystr) : M unit :=
  emit (ConsoleStatus (py "[cyan]正在分析您的查询..."));;
  '(query_type, content) ← call_deepseek natural_language;
  if negb (truthy query_type) || negb (truthy content) then
    console_print
      (RPanel (RText (py "[yellow]抱歉，无法理解您的查询，请尝试用其他方式表述"))
              (py "[red]✗ 查询失败") (py "red"))
  else
    let content := default [] content in
    if bool_decide (query_type = Some (py "explain")) then
      console_print (RPanel (RMarkdown content) (py "[green]💡 回答") (py "green"));;
      set_last_result VNone
    else
      me ← get_self;
      (if debug_mode me then
         console_print (RText (py "[dim]生成的代码: " ++ content ++ py "[/dim]"))
       else mret tt);;
      emit (ConsoleStatus (py "[cyan]正在获取数据..."));;
      result ← execute_code content;
      set_last_result result;;
      set_last_query (Some natural_language);;
      match result with
      | VStr s =>
          if contains (py "出错") s then
            console_print
              (RPanel (RText (py "[red]" ++ s ++ py "[/red]"))
                      (py "[red]✗ 执行错误") (py "red"));;
            set_last_result VNone
          else
            console_print (RPanel (RStr result) (py "[green]✓ 查询结果") (py "green"))
      | VDataFrame df =>
          console_print
            (RPanel (RTable df)
                    (py "[green]✓ 查询结果[/green] [dim](" ++ py (pretty (length (df_rows df)))
                       ++ py " 条记录)[/dim]")
                    (py "green"));;
          console_print (RText (py "[dim]输入 'save' 命令可保存此次查询结果[/dim]"))
      | _ =>
          console_print (RPanel (RStr result) (py "[green]✓ 查询结果") (py "green"))
      end.

End Methods.

End Program.
Export Program.

(** ** A fragment of Python's [exec]

    [exec] is the interpreter's, not the repository's. To run
    [execute_code] on concrete expression strings, this module gives the
    semantics of [exec(source, globals, locals)] (CPython 3.11) on a small
    fragment of the language: statements separated by [;] or newlines, each
    an assignment to a name, an [import] of one module or an expression;
    expressions built from names, integer and string literals, [None],
    [True], [False], attribute access and calls on atoms. [python_exec]
    answers [None] on any source it does not cover; it never guesses. *)

Module PyExec.

Inductive token : Type :=
| TName (n : pystr)
| TKeyword (k : pystr)
| TInt (z : Z)
| TStr (s : pystr)
| TDot | TLParen | TRParen | TComma | TAssign | TSemi | TNewline.

#[global] Instance token_eq_dec : EqDecision token.
Proof. solve_decision. Defined.

(** The reserved words of Python 3.11. *)
Definition keywords : list pystr :=
  map py
    [ "False"; "None"; "True"; "and"; "as"; "assert"; "async"; "await";
      "break"; "class"; "continue"; "def"; "del"; "elif"; "else"; "except";
      "finally"; "for"; "from"; "global"; "if"; "import"; "in"; "is";
      "lambda"; "nonlocal"; "not"; "or"; "pass"; "raise"; "return"; "try";
      "while"; "with"; "yield" ]%string.

Definition is_digit (c : N) : bool := (0x30 <=? c) && (c <=? 0x39).

Definition is_name_start (c : N) : bool :=
  ((0x41 <=? c) && (c <=? 0x5A)) || ((0x61 <=? c) && (c <=? 0x7A)) || (c =? 0x5F).

Definition is_name_char (c : N) : bool := is_name_start c || is_digit c.

Definition name_token (n : pystr) : token :=
  if bool_decide (n ∈ keywords) then TKeyword n else TName n.

(** The value of a decimal literal, given its digits. *)
Definition digits_value (ds : pystr) : Z :=
  fold_left (fun acc d => (acc * 10 + Z.of_N (d - 0x30))%Z) ds 0%Z.

(** A decimal literal: [0], or digits that do not start with [0]. *)
Definition int_token (ds : pystr) : option token :=
  match ds with
  | [] => None
  | d :: r => if (d =? 0x30) && negb (bool_decide (r = [])) then None
              else Some (TInt (digits_value ds))
  end.

(** The lexer's state: between tokens (at the start of a line or not), or
    inside a name, a number or a string literal (accumulated in reverse). *)
Inductive lex_mode : Type :=
| LineStart
| Idle
| InName (acc : pystr)
| InInt (acc : pystr)
| InStr (quote : N) (acc : pystr).

(** The token pending in a mode, when a delimiter or the end is reached. *)
Definition flush (m : lex_mode) : option (list token) :=
  match m with
  | LineStart | Idle => Some []
  | InName acc => Some [name_token (rev acc)]
  | InInt acc => t ← int_token (rev acc); Some [t]
  | InStr _ _ => None
  end.

Definition is_quote (c : N) : bool := (c =? 0x22) || (c =? 0x27).

(** Characters a short string literal holds as they are: nothing below
    the space, no backslash, no surrogate. *)
Definition plain_char (c : N) : bool :=
  (0x20 <=? c) && negb (c =? 0x5C) && negb ((0xD800 <=? c) && (c <=? 0xDFFF))
  && (c <=? 0x10FFFF).

Fixpoint lex (m : lex_mode) (s : pystr) : option (list token) :=
  match s with
  | [] => flush m
  | c :: r =>
      match m with
      | InStr q acc =>
          if c =? q then
            match r with
            | c' :: _ => if is_quote c' then None else cons (TStr (rev acc)) <$> lex Idle r
            | [] => Some [TStr (rev acc)]
            end
          else if plain_char c then lex (InStr q (c :: acc)) r
          else None
      | _ =>
          if is_name_char c then
            match m with
            | InName acc => lex (InName (c :: acc)) r
            | InInt acc => if is_digit c then lex (InInt (c :: acc)) r else None
            | _ => if is_digit c then lex (InInt [c]) r else lex (InName [c]) r
            end
          else
            pending ← flush m;
            rest ←
              (if (c =? 0x20) || (c =? 0x09) then
                 match m with
                 | LineStart => None
                 | _ => lex Idle r
                 end
               else if c =? 0x0A then cons TNewline <$> lex LineStart r
               else if is_quote c then
                 match m with
                 | InName _ | InInt _ => None
                 | _ => lex (InStr c []) r
                 end
               else if c =? 0x2E then
                 match m with
                 | InInt _ => None
                 | _ => cons TDot <$> lex Idle r
                 end
               else if c =? 0x28 then cons TLParen <$> lex Idle r
               else if c =? 0x29 then cons TRParen <$> lex Idle r
               else if c =? 0x2C then cons TComma <$> lex Idle r
               else if c =? 0x3B then cons TSemi <$> lex Idle r
               else if c =? 0x3D then
                 match r with
                 | c' :: _ => if c' =? 0x3D then None else cons TAssign <$> lex Idle r
                 | [] => Some [TAssign]
                 end
               else None);
            Some (pending ++ rest)
      end
  end.

(** *** Syntax *)

Inductive atom : Type :=
| AName (n : pystr)
| AInt (z : Z)
| AStr (s : pystr)
| ANone
| ATrue
| AFalse.

Inductive trailer : Type :=
| Attr (n : pystr)
| Call (args : list atom).

Record expr : Type := mk_expr { head : atom; trailers : list trailer }.

Inductive stmt : Type :=
| SAssign (target : pystr) (e : expr)
| SImport (module : pystr)
| SExpr (e : expr).

Definition parse_atom (t : token) : option atom :=
  match t with
  | TName n => Some (AName n)
  | TInt z => Some (AInt z)
  | TStr s => Some (AStr s)
  | TKeyword k =>
      if bool_decide (k = py "None") then Some ANone
      else if bool_decide (k = py "True") then Some ATrue
      else if bool_decide (k = py "False") then Some AFalse
      else None
  | _ => None
  end.

(** Where the parser is inside a call's parentheses. *)
Inductive arg_state : Type :=
| NoArgs
| ArgsExpectAtom (args : list atom)
| ArgsAfterAtom (args : list atom).

(** The trailers of an expression; what is left of the tokens comes back. *)
Fixpoint parse_tail (h : atom) (trs : list trailer) (st : arg_state) (ts : list token)
  : option (expr * list token) :=
  match st, ts with
  | NoArgs, TDot :: TName n :: r => parse_tail h (Attr n :: trs) NoArgs r
  | NoArgs, TDot :: _ => None
  | NoArgs, TLParen :: r => parse_tail h trs (ArgsExpectAtom []) r
  | NoArgs, _ => Some (mk_expr h (rev trs), ts)
  | ArgsExpectAtom args, TRParen :: r => parse_tail h (Call (rev args) :: trs) NoArgs r
  | ArgsExpectAtom args, t :: r =>
      match parse_atom t with
      | Some a => parse_tail h trs (ArgsAfterAtom (a :: args)) r
      | None => None
      end
  | ArgsAfterAtom args, TComma :: r => parse_tail h trs (ArgsExpectAtom args) r
  | ArgsAfterAtom args, TRParen :: r => parse_tail h (Call (rev args) :: trs) NoArgs r
  | _, _ => None
  end.

(** A whole expression: no token may be left. *)
Definition parse_expr (ts : list token) : option expr :=
  match ts with
  | [] => None
  | t :: r =>
      h ← parse_atom t;
      '(e, rest) ← parse_tail h [] NoArgs r;
      if bool_decide (rest = []) then Some e else None
  end.

Definition parse_stmt (ts : list token) : option stmt :=
  match ts with
  | TName x :: TAssign :: r =>
      if bool_decide (x = py "__debug__") then None else SAssign x <$> parse_expr r
  | TKeyword k :: r =>
      if bool_decide (k = py "import") then
        match r with
        | [TName m] => Some (SImport m)
        | _ => None
        end
      else SExpr <$> parse_expr ts
  | _ => SExpr <$> parse_expr ts
  end.

(** [split_on sep ts]: the runs of [ts] between occurrences of [sep]. *)
Fixpoint split_on (sep : token) (ts : list token) : list (list token) :=
  match ts with
  | [] => [[]]
  | t :: r =>
      if bool_decide (t = sep) then [] :: split_on sep r
      else
        match split_on sep r with
        | seg :: segs => (t :: seg) :: segs
        | [] => [[t]]
        end
  end.

(** One logical line: empty, or statements separated by [;], with one
    optional [;] at the end. *)
Definition parse_line (ts : list token) : option (list stmt) :=
  match ts with
  | [] => Some []
  | _ =>
      let segs := split_on TSemi ts in
      let segs :=
        match last segs with
        | Some [] => removelast segs
        | _ => segs
        end in
      mapM parse_stmt segs
  end.

Definition parse (source : pystr) : option (list stmt) :=
  ts ← lex LineStart source;
  lines ← mapM parse_line (split_on TNewline ts);
  Some (concat lines).

(** *** Evaluation *)

(** [dir(builtins)] of CPython 3.11 started with [site]. *)
Definition builtin_names : list pystr :=
  map py
    [ "ArithmeticError"; "AssertionError"; "AttributeError"; "BaseException";
      "BaseExceptionGroup"; "BlockingIOError"; "BrokenPipeError"; "BufferError";
      "BytesWarning"; "ChildProcessError"; "ConnectionAbortedError";
      "ConnectionError"; "ConnectionRefusedError"; "ConnectionResetError";
      "DeprecationWarning"; "EOFError"; "Ellipsis"; "EncodingWarning";
      "EnvironmentError"; "Exception"; "ExceptionGroup"; "False";
      "FileExistsError"; "FileNotFoundError"; "FloatingPointError";
      "FutureWarning"; "GeneratorExit"; "IOError"; "ImportError";
      "ImportWarning"; "IndentationError"; "IndexError"; "InterruptedError";
      "IsADirectoryError"; "KeyError"; "KeyboardInterrupt"; "LookupError";
      "MemoryError"; "ModuleNotFoundError"; "NameError"; "None";
      "NotADirectoryError"; "NotImplemented"; "NotImplementedError"; "OSError";
      "OverflowError"; "PendingDeprecationWarning"; "PermissionError";
      "ProcessLookupError"; "RecursionError"; "ReferenceError";
      "ResourceWarning"; "RuntimeError"; "RuntimeWarning";
      "StopAsyncIteration"; "StopIteration"; "SyntaxError"; "SyntaxWarning";
      "SystemError"; "SystemExit"; "TabError"; "TimeoutError"; "True";
      "TypeError"; "UnboundLocalError"; "UnicodeDecodeError";
      "UnicodeEncodeError"; "UnicodeError"; "UnicodeTranslateError";
      "UnicodeWarning"; "UserWarning"; "ValueError"; "Warning";
      "ZeroDivisionError"; "__build_class__"; "__debug__"; "__doc__";
      "__import__"; "__loader__"; "__name__"; "__package__"; "__spec__";
      "abs"; "aiter"; "all"; "anext"; "any"; "ascii"; "bin"; "bool";
      "breakpoint"; "bytearray"; "bytes"; "callable"; "chr"; "classmethod";
      "compile"; "complex"; "copyright"; "credits"; "delattr"; "dict"; "dir";
      "divmod"; "enumerate"; "eval"; "exec"; "exit"; "filter"; "float";
      "format"; "frozenset"; "getattr"; "globals"; "hasattr"; "hash"; "help";
      "hex"; "id"; "input"; "int"; "isinstance"; "issubclass"; "iter"; "len";
      "license"; "list"; "locals"; "map"; "max"; "memoryview"; "min"; "next";
      "object"; "oct"; "open"; "ord"; "pow"; "print"; "property"; "quit";
      "range"; "repr"; "reversed"; "round"; "set"; "setattr"; "slice";
      "sorted"; "staticmethod"; "str"; "sum"; "super"; "tuple"; "type";
      "vars"; "zip" ]%string.

(** The object a builtin name is bound to; [None] for the module
    attributes of [builtins] whose value the fragment does not give. *)
Definition builtin_value (n : pystr) : option pyval :=
  if bool_decide (n = py "__debug__") then Some (VBool true)
  else if bool_decide (n ∈ map py ["__doc__"; "__name__"; "__package__";
                                    "__loader__"; "__spec__"]%string)
       then None
  else Some (VObject (py "builtins." ++ n)).

(** Name lookup in the code [exec] runs: the local namespace, then the
    global one, then the builtins. *)
Definition lookup_name (g l : namespace) (n : pystr) : option (outcome pyval) :=
  match l !! n with
  | Some v => Some (Ok v)
  | None =>
      match g !! n with
      | Some v => Some (Ok v)
      | None =>
          if bool_decide (n ∈ builtin_names) then Ok <$> builtin_value n
          else Some (Raise (NameError (py "name '" ++ n ++ py "' is not defined")))
      end
  end.


Definition eval_atom (g l : namespace) (a : atom) : option (outcome pyval) :=
  match a with
  | AName n => lookup_name g l n
  | AInt z => Some (Ok (VInt z))
  | AStr s => Some (Ok (VStr s))
  | ANone => Some (Ok VNone)
  | ATrue => Some (Ok (VBool true))
  | AFalse => Some (Ok (VBool false))
  end.

(** Arguments are evaluated from left to right; the first to raise ends
    the evaluation. *)
Fixpoint eval_args (g l : namespace) (args : list atom) : option (outcome (list pyval)) :=
  match args with
  | [] => Some (Ok [])
  | a :: r =>
      match eval_atom g l a with
      | None => None
      | Some (Raise e) => Some (Raise e)
      | Some (Ok v) =>
          match eval_args g l r with
          | None => None
          | Some (Raise e) => Some (Raise e)
          | Some (Ok vs) => Some (Ok (v :: vs))
          end
      end
  end.

(** Modules of the standard library that [import] always finds. *)
Definition importable : list pystr := map py ["sys"; "os"; "subprocess"]%string.

(** [v.n]: the fragment knows [sys.exit]. *)
Definition get_attr (v : pyval) (n : pystr) : option (outcome pyval) :=
  match v with
  | VModule m =>
      if bool_decide (m = py "sys") && bool_decide (n = py "exit")
      then Some (Ok (VObject (py "sys.exit")))
      else None
  | _ => None
  end.

(** [f(args)]: the fragment knows [__import__(name)] and [sys.exit()]. *)
Definition call (f : pyval) (args : list pyval) : option (outcome pyval) :=
  match f, args with
  | VObject name, [VStr m] =>
      if bool_decide (name = py "builtins.__import__") && bool_decide (m ∈ importable)
      then Some (Ok (VModule m))
      else None
  | VObject name, [] =>
      if bool_decide (name = py "sys.exit") then Some (Raise (SystemExit []))
      else None
  | _, _ => None
  end.

Fixpoint eval_trailers (g l : namespace) (v : pyval) (trs : list trailer)
  : option (outcome pyval) :=
  match trs with
  | [] => Some (Ok v)
  | tr :: r =>
      let step :=
        match tr with
        | Attr n => get_attr v n
        | Call args =>
            match eval_args g l args with
            | None => None
            | Some (Raise e) => Some (Raise e)
            | Some (Ok vs) => call v vs
            end
        end in
      match step with
      | None => None
      | Some (Raise e) => Some (Raise e)
      | Some (Ok v') => eval_trailers g l v' r
      end
  end.

Definition eval_expr (g l : namespace) (e : expr) : option (outcome pyval) :=
  match eval_atom g l (head e) with
  | None => None
  | Some (Raise x) => Some (Raise x)
  | Some (Ok v) => eval_trailers g l v (trailers e)
  end.

(** One statement: the local namespace after it, or the exception. *)
Definition exec_stmt (g l : namespace) (s : stmt) : option (outcome namespace) :=
  match s with
  | SAssign x e =>
      match eval_expr g l e with
      | None => None
      | Some (Raise x) => Some (Raise x)
      | Some (Ok v) => Some (Ok (<[x := v]> l))
      end
  | SImport m =>
      if bool_decide (m ∈ importable) then Some (Ok (<[m := VModule m]> l)) else None
  | SExpr e =>
      match eval_expr g l e with
      | None => None
      | Some (Raise x) => Some (Raise x)
      | Some (Ok _) => Some (Ok l)
      end
  end.

Fixpoint exec_suite (g l : namespace) (ss : list stmt) : option (outcome namespace) :=
  match ss with
  | [] => Some (Ok l)
  | s :: r =>
      match exec_stmt g l s with
      | None => None
      | Some (Raise x) => Some (Raise x)
      | Some (Ok l') => exec_suite g l' r
      end
  end.

(** The builtins are the interpreter's own when [globals] does not bind
    [__builtins__] or binds it to the [builtins] module. *)
Definition standard_builtins (g : namespace) : bool :=
  match g !! py "__builtins__" with
  | None => true
  | Some (VModule m) => bool_decide (m = py "builtins")
  | Some _ => false
  end.

(** [exec(source, g, l)] on the fragment. *)
Definition python_exec (source : pystr) (g l : namespace) : option exec_outcome :=
  if standard_builtins g then
    ss ← parse source;
    r ← exec_suite g l ss;
    Some (match r with
          | Ok l' => ExecDone l'
          | Raise e => ExecRaised e
          end)
  else None.

End PyExec.
Export PyExec.

(** ** Notions used to state the properties *)

#[global] Arguments py : simpl never.
#[global] Arguments call_deepseek : simpl never.
#[global] Arguments execute_code : simpl never.
#[global] Arguments module_globals : simpl never.
#[global] Arguments local_vars : simpl never.

(** *** The parts of a response *)

(** [choices[0].message.content] of a decoded response, when every step
    of that path exists and the content is a string. *)
Definition first_choice_content (j : json) : option pystr :=
  match j with
  | JDict d =>
      match d !! py "choices" with
      | Some (JList (JDict c :: _)) =>
          match c !! py "message" with
          | Some (JDict m) =>
              match m !! py "content" with
              | Some (JStr text) => Some text
              | _ => None
              end
          | _ => None
          end
      | _ => None
      end
  | _ => None
  end.

(** The decoded response has a [choices] entry that is a non-empty list. *)
Definition has_nonempty_choices (j : json) : bool :=
  match j with
  | JDict d =>
      match d !! py "choices" with
      | Some (JList (_ :: _)) => true
      | _ => false
      end
  | _ => false
  end.

(** The body of a well-formed chat completion whose first choice says
    [text]. *)
Definition completion (text : pystr) : json :=
  JDict {[ py "choices" :=
    JList [ JDict {[ py "message" := JDict {[ py "content" := JStr text ]} ]} ] ]}.

(** The remote call has failed: no connection, a body that is not JSON,
    or a decoded body without a non-empty [choices] list. *)
Definition call_fails (o : post_outcome) : bool :=
  match o with
  | ConnectionFails _ => true
  | Responds _ (NotJson _) => true
  | Responds _ (Json j) => negb (has_nonempty_choices j)
  end.

(** *** Events of a run *)

Definition is_exec_call (ev : event) : bool :=
  match ev with
  | ExecCall _ _ _ => true
  | _ => false
  end.

(** No event of the list is a call of [exec]. *)
Definition no_evaluation (evs : list event) : bool :=
  forallb (fun ev => negb (is_exec_call ev)) evs.

(** The line [call_deepseek] prints when it catches an exception. *)
Definition api_failure_line (e : py_exception) : event :=
  ConsolePrint (RText (py "[red]✗[/red] API调用失败: " ++ exc_str e)).

(** The panels and lines [query] prints. *)
Definition analysing_status : event := ConsoleStatus (py "[cyan]正在分析您的查询...").
Definition fetching_status : event := ConsoleStatus (py "[cyan]正在获取数据...").

Definition failure_panel : event :=
  ConsolePrint
    (RPanel (RText (py "[yellow]抱歉，无法理解您的查询，请尝试用其他方式表述"))
            (py "[red]✗ 查询失败") (py "red")).

Definition answer_panel (content : pystr) : event :=
  ConsolePrint (RPanel (RMarkdown content) (py "[green]💡 回答") (py "green")).

Definition error_panel (result : pystr) : event :=
  ConsolePrint
    (RPanel (RText (py "[red]" ++ result ++ py "[/red]")) (py "[red]✗ 执行错误") (py "red")).

Definition debug_line (content : pystr) : event :=
  ConsolePrint (RText (py "[dim]生成的代码: " ++ content ++ py "[/dim]")).

Definition no_data_warning : event :=
  ConsolePrint (RText (py "[yellow]⚠ 没有可保存的数据[/yellow]")).

(** *** States of a run *)

(** The instance with its last result and last query replaced. *)
Definition remember (me : NLDataQuery) (result : pyval) (q : option pystr) : NLDataQuery :=
  mk_instance (deepseek_api_key me) (debug_mode me) result q.

(** The source text handed to [exec] for an expression. *)
Definition exec_source (code : pystr) : pystr := py "result = " ++ code.

(** The string [execute_code] returns for a caught exception. *)
Definition execution_error (e : py_exception) : pystr := py "执行出错: " ++ exc_str e.

(** The state in which [query] calls [execute_code]. *)
Definition before_exec (s1 : state) (code : pystr) : state :=
  mk_state (self s1)
    (log s1 ++ (if debug_mode (self s1) then [debug_line code] else [])
       ++ [fetching_status]).

(** What [query] does with the result of the evaluation (lines 236-260). *)
Definition show_result (nl : pystr) (result : pyval) (s2 : state) : state :=
  match result with
  | VStr r =>
      if contains (py "出错") r then
        mk_state (remember (self s2) VNone (Some nl)) (log s2 ++ [error_panel r])
      else
        mk_state (remember (self s2) result (Some nl))
          (log s2 ++ [ConsolePrint (RPanel (RStr result) (py "[green]✓ 查询结果") (py "green"))])
  | VDataFrame df =>
      mk_state (remember (self s2) result (Some nl))
        (log s2 ++
           [ConsolePrint
              (RPanel (RTable df)
                 (py "[green]✓ 查询结果[/green] [dim](" ++ py (pretty (length (df_rows df)))
                    ++ py " 条记录)[/dim]")
                 (py "green"));
            ConsolePrint (RText (py "[dim]输入 'save' 命令可保存此次查询结果[/dim]"))])
  | _ =>
      mk_state (remember (self s2) result (Some nl))
        (log s2 ++ [ConsolePrint (RPanel (RStr result) (py "[green]✓ 查询结果") (py "green"))])
  end.

(** The classification [call_deepseek] returns for an answer of the
    endpoint. *)
Definition classification (o : post_outcome) : option pystr * option pystr :=
  match o with
  | Responds _ (Json j) =>
      match read_choices j with
      | Ok r => r
      | Raise _ => (None, None)
      end
  | _ => (None, None)
  end.

(** What [call_deepseek] prints for it. *)
Definition classification_log (o : post_outcome) : list event :=
  match o with
  | ConnectionFails msg => [api_failure_line (RequestException msg)]
  | Responds _ (NotJson msg) => [api_failure_line (JSONDecodeError msg)]
  | Responds _ (Json j) =>
      match read_choices j with
      | Ok _ => []
      | Raise e => [api_failure_line e]
      end
  end.

(** *** Interpreters and worlds *)


(** What [cpython_exec] answers outside the fragment; no statement below
    runs it there. *)
Definition outside_fragment : exec_outcome :=
  ExecRaised (mk_exception (py "SyntaxError") true (py "invalid syntax")).

(** [exec], as far as the fragment gives it. *)
Definition cpython_exec (source : pystr) (g l : namespace) : exec_outcome :=
  default outside_fragment (python_exec source g l).

(** [str.isalnum] on ASCII. *)
Definition ascii_isalnum (c : N) : bool :=
  ((0x30 <=? c) && (c <=? 0x39)) || ((0x41 <=? c) && (c <=? 0x5A))
  || ((0x61 <=? c) && (c <=? 0x7A)).

(** A world whose endpoint answers by [endpoint] and whose [exec] is [E];
    the [data] folder exists and writing succeeds. *)
Definition world_of (endpoint : pystr -> post_outcome)
    (E : pystr -> namespace -> namespace -> exec_outcome) : world :=
  mk_world (fun _ prompt => endpoint prompt) E
           (fun _ => true) (fun _ => None) (fun _ => None) (fun path => py "/app/" ++ path)
           (py "20250101_093000") ascii_isalnum (py "/app/original version.py").


(** The endpoint answers every prompt with the completion [text]. *)
Definition replying (text : pystr) : world :=
  world_of (fun _ => Responds 200 (Json (completion text))) cpython_exec.

(** A new instance, before any query. *)
Definition fresh : state :=
  mk_state (mk_instance (py "sk-key") false VNone None) [].

(** A world with no endpoint, whose [exec] is the fragment's. *)
Definition python_world : world :=
  world_of (fun _ => ConnectionFails (py "offline")) cpython_exec.




(** A table of two columns and one row. *)
Definition one_row : dataframe :=
  mk_dataframe [py "date"; py "close"] [[py "2025-01-02"; py "3262.56"]].

(** The endpoint understands one question and times out on any other;
    the evaluation returns the table. *)
Definition one_question : world :=
  world_of
    (fun prompt =>
       if bool_decide (prompt = py "index 10")
       then Responds 200 (Json (completion (py "CODE|ak.stock_zh_index_daily().tail(10)")))
       else ConnectionFails (py "Read timed out."))
    (fun _ _ l => ExecDone (<[py "result" := VDataFrame one_row]> l)).

(** *** Expressions and outcomes *)


(** [exec] ended by itself or by an exception that derives from
    [Exception]. *)
Definition ends_within_Exception (o : exec_outcome) : bool :=
  match o with
  | ExecDone _ => true
  | ExecRaised e => exc_is_Exception e
  end.

(** ** The rest of the program *)

(** *** [format_dataframe] *)

(** The [rich] table that [format_dataframe] builds: the headers of its
    columns, and its rows, each with the flag of the [dim] style. *)
Record rich_table : Type := mk_table {
  table_columns : list pystr;
  table_rows : list (list pystr * bool)
}.

Section FormatDataframe.

Context {L : Type} `{EqDecision L}.

(** [format_dataframe] (lines 136-161) on a frame whose rows carry the
    index labels [index]; a label is taken to be equal to itself. *)
Definition format_dataframe (index : list L) (df : dataframe) (max_rows : nat) : rich_table :=
  let n := length (df_rows df) in
  let labelled := zip index (df_rows df) in
  let half := (max_rows / 2)%nat in
  let show_ellipsis := bool_decide (max_rows < n)%nat in
  let df_display :=
    if show_ellipsis then take half labelled ++ drop (n - half) labelled else labelled in
  mk_table
    (df_columns df)
    (flat_map
       (fun '(idx, row) =>
          (row, false) ::
          (if show_ellipsis && bool_decide (Some idx = last (take half index))
           then [(map (fun _ => py "...") (df_columns df), true)]
           else []))
       df_display).

End FormatDataframe.

(** *** [query] of [test_imporve.py] *)

Section Improved.

Variable w : world.


End Improved.

(** *** The prompt loop of [main] *)

(** How the loop stands: left by [break], or waiting for a line that the
    list of inputs does not hold. *)
Inductive loop_status : Type :=
| Stopped
| AwaitingInput.

Definition goodbye : pystr := py "[cyan]感谢使用，再见！[/cyan]".

Definition is_KeyboardInterrupt (e : py_exception) : bool :=
  bool_decide (exc_type e = py "KeyboardInterrupt").

Definition set_debug_mode (b : bool) : M unit :=
  fun s =>
    let me := self s in
    (Ok tt, mk_state (mk_instance (deepseek_api_key me) b (last_result me) (last_query me))
              (log s)).

Section Main.

Variable w : world.

(** [str.lower]; its tables are Unicode's, not the repository's. *)
Variable py_lower : pystr -> pystr.

(** The [try] block of the loop (lines 296-319), given what
    [console.input] returned or raised; [true] stands for [break]. The
    prompt itself is not logged, and [console.print()] is logged as the
    print of an empty text. *)
Definition loop_body (line : outcome pystr) : M bool :=
  raw ← lift line;
  let user_input := strip raw in
  if bool_decide (user_input = []) then mret false
  else if bool_decide (py_lower user_input ∈ [py "exit"; py "quit"; py "退出"]) then
    console_print (RText ([10] ++ goodbye));;
    mret true
  else if bool_decide (py_lower user_input = py "debug") then
    me ← get_self;
    set_debug_mode (negb (debug_mode me));;
    me ← get_self;
    let status := if debug_mode me then py "开启" else py "关闭" in
    console_print (RText (py "[yellow]调试模式已" ++ status ++ py "[/yellow]" ++ [10]));;
    mret false
  else if bool_decide (py_lower user_input = py "save") then
    save_result w None;;
    console_print (RText []);;
    mret false
  else
    query w user_input;;
    console_print (RText []);;
    mret false.

(** One turn of the loop, with its two [except] clauses (lines 321-325). *)
Definition loop_turn (line : outcome pystr) : M bool :=
  fun s =>
    match loop_body line s with
    | (Ok stop, s') => (Ok stop, s')
    | (Raise e, s') =>
        if is_KeyboardInterrupt e then
          (console_print (RText ([10; 10] ++ goodbye));; mret true) s'
        else if exc_is_Exception e then
          (console_print (RText (py "[red]✗ 出错: " ++ exc_str e ++ py "[/red]" ++ [10]));;
           mret false) s'
        else (Raise e, s')
    end.

(** [while True] (lines 294-325) over the lines the user enters. *)
Fixpoint main_loop (inputs : list (outcome pystr)) : M loop_status :=
  match inputs with
  | [] => mret AwaitingInput
  | line :: rest =>
      stop ← loop_turn line;
      if stop : bool then mret Stopped else main_loop rest
  end.

End Main.

(** *** Notions for the further properties *)

Definition is_http_post (ev : event) : bool :=
  match ev with
  | HttpPost _ _ => true
  | _ => false
  end.




(** [str.lower] on ASCII. *)
Definition ascii_lower (s : pystr) : pystr :=
  map (fun c => if (0x41 <=? c) && (c <=? 0x5A) then c + 32 else c) s.

(** The number of events of a kind in a list. *)
Definition count_events (f : event -> bool) (evs : list event) : nat :=
  length (List.filter f evs).

(** The state in which [call_deepseek] leaves [query]. *)
Definition after_call (w : world) (nl : pystr) (s : state) : state :=
  mk_state (self s)
    (log s ++ [analysing_status; HttpPost (deepseek_api_key (self s)) nl]
       ++ classification_log (requests_post w (deepseek_api_key (self s)) nl)).

(** What [query] does, by the classification and the evaluation. *)
Definition query_outcome (w : world) (nl : pystr) (s : state) : outcome unit * state :=
  let s1 := after_call w nl s in
  match classification (requests_post w (deepseek_api_key (self s)) nl) with
  | (Some kind, Some (c :: code)) =>
      if bool_decide (kind = py "explain") then
        (Ok tt, mk_state (remember (self s) VNone (last_query (self s)))
                  (log s1 ++ [answer_panel (c :: code)]))
      else
        match execute_code w (c :: code) (before_exec s1 (c :: code)) with
        | (Ok result, s2) => (Ok tt, show_result nl result s2)
        | (Raise e, s2) => (Raise e, s2)
        end
  | _ => (Ok tt, mk_state (self s) (log s1 ++ [failure_panel]))
  end.

(** The characters of the query that the default file name keeps. *)
Definition clean_query (w : world) (q : pystr) : pystr :=
  take 30 (filter (fun c => Is_true (isalnum w c || bool_decide (c ∈ py "._- 中文"))) q).

(** The name [save_result] gives the file: the one it is passed, or the
    one it makes of the last query. *)
Definition save_name (w : world) (filename last : option pystr) : outcome pystr :=
  match filename with
  | Some f => Ok f
  | None =>
      match last with
      | Some q => Ok (clean_query w q ++ py "_" ++ now_strftime w ++ py ".csv")
      | None => Raise (TypeError (py "'NoneType' object is not iterable"))
      end
  end.

(** The path of the file. *)
Definition save_path (name : pystr) : pystr :=
  os_path_join (py "data") (if endswith name (py ".csv") then name else name ++ py ".csv").

Definition saved_line (w : world) (path : pystr) : event :=
  ConsolePrint (RText (py "[green]✓ 数据已保存到: " ++ abspath w path ++ py "[/green]")).

Definition save_failed_line (e : py_exception) : event :=
  ConsolePrint (RText (py "[red]✗ 保存失败: " ++ exc_str e ++ py "[/red]")).

(** The end of the [try] block on an exception: caught and reported, or
    let through. *)
Definition save_caught (evs : list event) (e : py_exception)
  : list event * option py_exception :=
  if exc_is_Exception e then (evs ++ [save_failed_line e], None) else (evs, Some e).

(** What [save_result] adds to the log, and the exception it lets
    through, if any. *)
Definition save_trace (w : world) (filename : option pystr) (me : NLDataQuery)
  : list event * option py_exception :=
  match last_result me with
  | VNone => ([no_data_warning], None)
  | result =>
      let pre := if path_exists w (py "data") then [] else [Makedirs (py "data")] in
      match (if path_exists w (py "data") then None else makedirs w (py "data")) with
      | Some e => save_caught pre e
      | None =>
          match save_name w filename (last_query me) with
          | Raise e => save_caught pre e
          | Ok name =>
              let ev := match result with
                        | VDataFrame df => ToCsv (save_path name) df
                        | _ => FileWrite (save_path name) result
                        end in
              match write_file w (save_path name) with
              | Some e => save_caught (pre ++ [ev]) e
              | None => (pre ++ [ev; saved_line w (save_path name)], None)
              end
          end
      end
  end.

(** An instance that holds a table and the query that gave it. *)
Definition holding_table : state :=
  mk_state (mk_instance (py "sk-key") false (VDataFrame one_row) (Some (py "index 10"))) [].

(** The state in which the evaluation leaves [query]. *)
Definition after_exec (w : world) (nl code : pystr) (s : state) : state :=
  mk_state (self s)
    (log (before_exec (after_call w nl s) code)
       ++ [ExecCall (exec_source code) (module_globals w) local_vars]).

(** The file event for a result. *)
Definition file_event (path : pystr) (result : pyval) : event :=
  match result with
  | VDataFrame df => ToCsv path df
  | _ => FileWrite path result
  end.

(** A result that [query] shows as data: not [None], and not a string
    with the error marker. *)
Definition is_data (result : pyval) : bool :=
  match result with
  | VNone => false
  | VStr r => negb (contains (py "出错") r)
  | _ => true
  end.

(** An instance with a last result has a last query. *)
Definition has_query_for_result (me : NLDataQuery) : bool :=
  match last_result me, last_query me with
  | VNone, _ => true
  | _, Some _ => true
  | _, None => false
  end.

(** A row of data, as the table shows it. *)
Definition plain_row (row : list pystr) : list pystr * bool := (row, false).


(** A frame of three rows. *)
Definition three_rows : dataframe :=
  mk_dataframe [py "date"; py "close"]
    [[py "2025-01-02"; py "3262.56"]; [py "2025-01-03"; py "3211.43"];
     [py "2025-01-06"; py "3206.92"]].

(** The line the loop prints for an exception it catches. *)
Definition loop_error_line (e : py_exception) : event :=
  ConsolePrint (RText (py "[red]✗ 出错: " ++ exc_str e ++ py "[/red]" ++ [10])).

(** A line that is no query: a failed read, a blank line, or one of the
    commands. *)
Definition is_command (py_lower : pystr -> pystr) (line : outcome pystr) : bool :=
  match line with
  | Raise _ => true
  | Ok raw =>
      bool_decide (strip raw = [])
      || bool_decide (py_lower (strip raw) ∈ [py "exit"; py "quit"; py "退出"])
      || bool_decide (py_lower (strip raw) = py "debug")
      || bool_decide (py_lower (strip raw) = py "save")
  end.

(** [EOFError], as [input] raises it at the end of the input. *)
Definition end_of_input : py_exception :=
  mk_exception (py "EOFError") true (py "EOF when reading a line").


(** * Properties *)

(** ** Python strings *)

Section StripFacts.

Lemma startswith_app (p s : pystr) : startswith (p ++ s) p = true.
Proof.
  induction p as [|a p IH]; simpl; [done|].
  by rewrite N.eqb_refl, IH.
Qed.


Lemma drop_app_length (p s : pystr) : drop (length p) (p ++ s) = s.
Proof. induction p; simpl; auto. Qed.

Lemma drop_spaces_app (a b : pystr) :
  drop_spaces (a ++ b) =
    match drop_spaces a with
    | [] => drop_spaces b
    | r => r ++ b
    end.
Proof.
  induction a as [|c a IH]; simpl.
  - by destruct (drop_spaces b).
  - destruct (isspace c); [apply IH | done].
Qed.

Lemma drop_spaces_idem (s : pystr) : drop_spaces (drop_spaces s) = drop_spaces s.
Proof.
  induction s as [|c s IH]; simpl; [done|].
  destruct (isspace c) eqn:E; [done | simpl; by rewrite E].
Qed.

(** [rstrip], one character at a time from the left. *)
Lemma rstrip_cons (c : N) (s : pystr) :
  rstrip (c :: s) =
    match rstrip s with
    | [] => if isspace c then [] else [c]
    | r => c :: r
    end.
Proof.
  unfold rstrip. simpl rev. rewrite drop_spaces_app.
  destruct (drop_spaces (rev s)) as [|d r] eqn:E; simpl.
  - by destruct (isspace c).
  - rewrite rev_app_distr. simpl.
    destruct (rev r ++ [d]) as [|x t] eqn:E'; [by destruct (rev r) | done].
Qed.

(** A prefix that ends in a visible character survives [rstrip]. *)
Lemma rstrip_app_visible (a : pystr) (c : N) (b : pystr) :
  isspace c = false -> rstrip (a ++ c :: b) = a ++ c :: rstrip b.
Proof.
  intros Hc. induction a as [|x a IH]; simpl.
  - rewrite rstrip_cons. destruct (rstrip b); by rewrite ?Hc.
  - rewrite rstrip_cons, IH. by destruct a.
Qed.

Lemma rstrip_idem (s : pystr) : rstrip (rstrip s) = rstrip s.
Proof.
  unfold rstrip. by rewrite rev_involutive, drop_spaces_idem.
Qed.

Lemma lstrip_rstrip_comm (s : pystr) : lstrip (rstrip s) = rstrip (lstrip s).
Proof.
  unfold lstrip. induction s as [|c s IH]; [done|].
  rewrite rstrip_cons. simpl drop_spaces at 2.
  destruct (isspace c) eqn:E.
  - rewrite <- IH. destruct (rstrip s); simpl; by rewrite ?E.
  - rewrite rstrip_cons. destruct (rstrip s); simpl; by rewrite E.
Qed.

(** Stripping a string already stripped on the right. *)
Lemma strip_rstrip (s : pystr) : strip (rstrip s) = strip s.
Proof.
  unfold strip. by rewrite lstrip_rstrip_comm, rstrip_idem.
Qed.

(** A string with visible first and last characters is its own strip. *)
Lemma lstrip_visible (c : N) (s : pystr) :
  isspace c = false -> lstrip (c :: s) = c :: s.
Proof. intros H. unfold lstrip. simpl. by rewrite H. Qed.



End StripFacts.

(** ** Reading the model's reply *)

Section Classification.

Lemma first_choice_completion (text : pystr) :
  first_choice_content (completion text) = Some text.
Proof.
  unfold first_choice_content, completion.
  by rewrite !lookup_singleton_eq.
Qed.

Lemma first_choice_nonempty (j : json) (text : pystr) :
  first_choice_content j = Some text -> has_nonempty_choices j = true.
Proof.
  destruct j as [| | | | |l|d]; try discriminate. simpl.
  destruct (d !! py "choices") as [[| | | | |[|x l]|]|]; try discriminate.
  done.
Qed.

(** With the whole path in place the reply is tagged. *)
Lemma read_choices_content (j : json) (text : pystr) :
  first_choice_content j = Some text ->
  read_choices j = Ok (tag_content (strip text)).
Proof.
  destruct j as [| | | | |l|d]; try discriminate. simpl.
  destruct (d !! py "choices") as [[| | | | |[|[| | | | | |c] l]|]|] eqn:Hc;
    try discriminate.
  destruct (c !! py "message") as [[| | | | | |m]|] eqn:Hm; try discriminate.
  destruct (m !! py "content") as [[| | | |s| |]|] eqn:Hs; try discriminate.
  intros [= ->]. unfold read_choices. simpl. rewrite Hc. simpl.
  rewrite Hm. simpl. by rewrite Hs.
Qed.

(** Without it the reading gives [(None, None)] or raises an exception
    that [except Exception] catches. *)
Lemma read_choices_no_content (j : json) :
  first_choice_content j = None ->
  read_choices j = Ok (None, None) \/
  exists e, read_choices j = Raise e /\ exc_is_Exception e = true.
Proof.
  intros H. unfold read_choices.
  destruct j as [| | | | |l|d]; simpl; try (right; eexists; split; reflexivity).
  - destruct (contains _ _); simpl; [right; eexists; split; reflexivity | by left].
  - destruct (existsb _ _); simpl; [right; eexists; split; reflexivity | by left].
  - simpl in H. destruct (d !! py "choices") as [ch|] eqn:Hc; simpl; [|by left].
    destruct ch as [| | | |s|[|x l]|d']; simpl;
      try (right; eexists; split; reflexivity); try by left.
    + destruct s; simpl; [by left | right; eexists; split; reflexivity].
    + destruct x as [| | | | | |c]; simpl; try (right; eexists; split; reflexivity).
      destruct (c !! py "message") as [msg|] eqn:Hm; simpl;
        [|right; eexists; split; reflexivity].
      destruct msg as [| | | | | |m]; simpl; try (right; eexists; split; reflexivity).
      destruct (m !! py "content") as [ct|] eqn:Hs; simpl;
        [|right; eexists; split; reflexivity].
      destruct ct; simpl; try (right; eexists; split; reflexivity).
      discriminate.
    + destruct (bool_decide _); simpl; [right; eexists; split; reflexivity | by left].
Qed.

End Classification.

(** *** The tags *)

Section TagFacts.

Lemma strip_code_prefix (X : pystr) : strip (py "CODE|" ++ X) = py "CODE|" ++ rstrip X.
Proof.
  change (py "CODE|" ++ X) with (67 :: [79; 68; 69] ++ 124 :: X).
  change (py "CODE|" ++ rstrip X) with ([67; 79; 68; 69] ++ 124 :: rstrip X).
  unfold strip. rewrite lstrip_visible by reflexivity.
  by apply (rstrip_app_visible [67; 79; 68; 69] 124 X).
Qed.

Lemma strip_explain_prefix (X : pystr) :
  strip (py "EXPLAIN|" ++ X) = py "EXPLAIN|" ++ rstrip X.
Proof.
  change (py "EXPLAIN|" ++ X) with (69 :: [88; 80; 76; 65; 73; 78] ++ 124 :: X).
  change (py "EXPLAIN|" ++ rstrip X) with ([69; 88; 80; 76; 65; 73; 78] ++ 124 :: rstrip X).
  unfold strip. rewrite lstrip_visible by reflexivity.
  by apply (rstrip_app_visible [69; 88; 80; 76; 65; 73; 78] 124 X).
Qed.

(** A reply [CODE|X] is tagged as code, with [X] trimmed. *)
Lemma tag_code (X : pystr) :
  tag_content (strip (py "CODE|" ++ X)) = (Some (py "code"), Some (strip X)).
Proof.
  rewrite strip_code_prefix. unfold tag_content.
  rewrite startswith_app.
  change 5%nat with (length (py "CODE|")).
  by rewrite drop_app_length, strip_rstrip.
Qed.

(** A reply [EXPLAIN|X] is tagged as an explanation, with [X] trimmed. *)
Lemma tag_explain (X : pystr) :
  tag_content (strip (py "EXPLAIN|" ++ X)) = (Some (py "explain"), Some (strip X)).
Proof.
  rewrite strip_explain_prefix. unfold tag_content.
  replace (startswith (py "EXPLAIN|" ++ rstrip X) (py "CODE|")) with false by reflexivity.
  rewrite startswith_app.
  change 8%nat with (length (py "EXPLAIN|")).
  by rewrite drop_app_length, strip_rstrip.
Qed.

(** Any other reply is taken whole, as code. *)
Lemma tag_fallback (content : pystr) :
  startswith content (py "CODE|") = false ->
  startswith content (py "EXPLAIN|") = false ->
  tag_content content = (Some (py "code"), Some content).
Proof. intros H1 H2. unfold tag_content. by rewrite H1, H2. Qed.

End TagFacts.

(** ** What [call_deepseek] returns *)

Section CallFacts.

Variable w : world.

Lemma call_deepseek_content (prompt : pystr) (s : state) (st : Z) (j : json) (text : pystr) :
  requests_post w (deepseek_api_key (self s)) prompt = Responds st (Json j) ->
  first_choice_content j = Some text ->
  call_deepseek w prompt s =
    (Ok (tag_content (strip text)),
     mk_state (self s) (log s ++ [HttpPost (deepseek_api_key (self s)) prompt])).
Proof.
  intros Hpost Hj.
  unfold call_deepseek, try_except, post_json, get_self, emit, lift, raise.
  unfold mbind, M_bind, mret, M_ret. simpl. rewrite Hpost. simpl.
  by rewrite (read_choices_content j text Hj).
Qed.

End CallFacts.

(** ** The reference interpreter *)


(** ** Classification of the reply: the three cases *)

Section TaggedReplies.

Variable w : world.

(** C5. For a reply of the form [CODE|X], [call_deepseek] returns the
    kind ["code"] and the payload [X] with the whitespace around it
    trimmed. *)
Theorem call_deepseek_code_reply
    (prompt : pystr) (s : state) (st : Z) (j : json) (X : pystr) :
  requests_post w (deepseek_api_key (self s)) prompt = Responds st (Json j) ->
  first_choice_content j = Some (py "CODE|" ++ X) ->
  fst (call_deepseek w prompt s) = Ok (Some (py "code"), Some (strip X)).
Proof.
  intros Hpost Hj.
  rewrite (call_deepseek_content w prompt s st j _ Hpost Hj). cbn [fst].
  by rewrite tag_code.
Qed.

(** C6, amended. For a reply of the form [EXPLAIN|X], [call_deepseek]
    returns the kind ["explain"] and the payload [X] with the whitespace
    around it trimmed. *)
Theorem call_deepseek_explain_reply
    (prompt : pystr) (s : state) (st : Z) (j : json) (X : pystr) :
  requests_post w (deepseek_api_key (self s)) prompt = Responds st (Json j) ->
  first_choice_content j = Some (py "EXPLAIN|" ++ X) ->
  fst (call_deepseek w prompt s) = Ok (Some (py "explain"), Some (strip X)).
Proof.
  intros Hpost Hj.
  rewrite (call_deepseek_content w prompt s st j _ Hpost Hj). cbn [fst].
  by rewrite tag_explain.
Qed.

(** C7, amended. For a reply whose trimmed text starts with neither
    [CODE|] nor [EXPLAIN|], [call_deepseek] returns the kind ["code"] and
    the trimmed text as payload. *)
Theorem call_deepseek_untagged_reply
    (prompt : pystr) (s : state) (st : Z) (j : json) (text : pystr) :
  requests_post w (deepseek_api_key (self s)) prompt = Responds st (Json j) ->
  first_choice_content j = Some text ->
  startswith (strip text) (py "CODE|") = false ->
  startswith (strip text) (py "EXPLAIN|") = false ->
  fst (call_deepseek w prompt s) = Ok (Some (py "code"), Some (strip text)).
Proof.
  intros Hpost Hj H1 H2.
  rewrite (call_deepseek_content w prompt s st j _ Hpost Hj). cbn [fst].
  by rewrite tag_fallback.
Qed.

End TaggedReplies.

Lemma call_deepseek_code_reply_witness :
  fst (call_deepseek (replying (py "CODE| ak.stock_zh_index_daily().tail(10) "))
         (py "q") fresh)
  = Ok (Some (py "code"), Some (py "ak.stock_zh_index_daily().tail(10)")).
Proof.
  apply (call_deepseek_code_reply
           (replying (py "CODE| ak.stock_zh_index_daily().tail(10) "))
           (py "q") fresh 200
           (completion (py "CODE| ak.stock_zh_index_daily().tail(10) "))
           (py " ak.stock_zh_index_daily().tail(10) ")).
  - reflexivity.
  - vm_compute. reflexivity.
Defined.

(** A reply [EXPLAIN| hi]: the payload is [hi], not the text after the
    prefix as it stands. *)
Lemma explain_payload_not_verbatim :
  first_choice_content (completion (py "EXPLAIN| hi")) = Some (py "EXPLAIN|" ++ py " hi") /\
  fst (call_deepseek (replying (py "EXPLAIN| hi")) (py "q") fresh)
    = Ok (Some (py "explain"), Some (py "hi")) /\
  py "hi" <> py " hi".
Proof.
  split; [vm_compute; reflexivity|].
  split; [vm_compute; reflexivity|].
  vm_compute. discriminate.
Qed.

Lemma call_deepseek_explain_reply_witness :
  fst (call_deepseek (replying (py "EXPLAIN| hi")) (py "q") fresh)
  = Ok (Some (py "explain"), Some (strip (py " hi"))).
Proof.
  apply (call_deepseek_explain_reply (replying (py "EXPLAIN| hi")) (py "q") fresh 200
           (completion (py "EXPLAIN| hi")) (py " hi")).
  - reflexivity.
  - vm_compute. reflexivity.
Defined.

(** A reply that starts with a space and then [EXPLAIN|hi] starts with
    neither prefix, and is classified as an explanation. *)
Lemma untagged_reply_not_verbatim :
  startswith (py " EXPLAIN|hi") (py "CODE|") = false /\
  startswith (py " EXPLAIN|hi") (py "EXPLAIN|") = false /\
  first_choice_content (completion (py " EXPLAIN|hi")) = Some (py " EXPLAIN|hi") /\
  fst (call_deepseek (replying (py " EXPLAIN|hi")) (py "q") fresh)
    = Ok (Some (py "explain"), Some (py "hi")).
Proof.
  repeat split; vm_compute; reflexivity.
Qed.

Lemma call_deepseek_untagged_reply_witness :
  fst (call_deepseek (replying (py " ak.fund_name_em() ")) (py "q") fresh)
  = Ok (Some (py "code"), Some (strip (py " ak.fund_name_em() "))).
Proof.
  apply (call_deepseek_untagged_reply (replying (py " ak.fund_name_em() ")) (py "q") fresh 200
           (completion (py " ak.fund_name_em() ")) (py " ak.fund_name_em() ")).
  - reflexivity.
  - vm_compute. reflexivity.
  - vm_compute. reflexivity.
  - vm_compute. reflexivity.
Defined.

(** ** What [execute_code] and [query] do *)

Section RunFacts.

Variable w : world.

(** [execute_code], by what [exec] does. *)
Lemma execute_code_run (code : pystr) (s : state) :
  execute_code w code s =
    let s' := mk_state (self s)
                (log s ++ [ExecCall (exec_source code) (module_globals w) local_vars]) in
    match py_exec w (exec_source code) (module_globals w) local_vars with
    | ExecDone l' => (Ok (default VNone (l' !! py "result")), s')
    | ExecRaised e =>
        if exc_is_Exception e then (Ok (VStr (execution_error e)), s') else (Raise e, s')
    end.
Proof.
  unfold execute_code, try_except, emit, raise, exec_source, execution_error.
  unfold mbind, M_bind, mret, M_ret. simpl.
  destruct (py_exec w _ _ _) as [l'|e]; [done|].
  by destruct (exc_is_Exception e).
Qed.


Lemma execution_error_nonempty (e : py_exception) : execution_error e <> [].
Proof.
  unfold execution_error.
  change (py "执行出错: ") with (0x6267 :: [0x884C; 0x51FA; 0x9519; 0x3A; 0x20]).
  discriminate.
Qed.

(** [query] when the classification is falsy: the failure panel, and
    nothing else. *)
Lemma query_unrecognized (nl : pystr) (s s1 : state) (qt c : option pystr) :
  call_deepseek w nl (mk_state (self s) (log s ++ [analysing_status])) = (Ok (qt, c), s1) ->
  truthy qt && truthy c = false ->
  query w nl s = (Ok tt, mk_state (self s1) (log s1 ++ [failure_panel])).
Proof.
  intros Hc Ht. unfold query, emit, console_print, emit.
  unfold mbind, M_bind, mret, M_ret. simpl.
  unfold analysing_status in Hc. rewrite Hc.
  apply andb_false_iff in Ht.
  destruct (truthy qt), (truthy c); simpl; try done; by destruct Ht.
Qed.

(** [query] on an explanation with something in it. *)
Lemma query_explain (nl : pystr) (s s1 : state) (P : pystr) :
  call_deepseek w nl (mk_state (self s) (log s ++ [analysing_status]))
    = (Ok (Some (py "explain"), Some P), s1) ->
  P <> [] ->
  query w nl s =
    (Ok tt, mk_state (remember (self s1) VNone (last_query (self s1)))
              (log s1 ++ [answer_panel P])).
Proof.
  intros Hc HP. unfold query, emit, console_print, emit, set_last_result.
  unfold mbind, M_bind, mret, M_ret. simpl.
  unfold analysing_status in Hc. rewrite Hc.
  destruct P as [|p P]; [done|]. simpl.
  reflexivity.
Qed.

(** [query] on code: evaluate, then show. *)
Lemma query_code (nl : pystr) (s s1 : state) (code : pystr) :
  call_deepseek w nl (mk_state (self s) (log s ++ [analysing_status]))
    = (Ok (Some (py "code"), Some code), s1) ->
  code <> [] ->
  query w nl s =
    match execute_code w code (before_exec s1 code) with
    | (Ok result, s2) => (Ok tt, show_result nl result s2)
    | (Raise e, s2) => (Raise e, s2)
    end.
Proof.
  intros Hc HP. unfold query, emit, console_print, emit, set_last_result, set_last_query, get_self.
  unfold mbind, M_bind, mret, M_ret. simpl.
  unfold analysing_status in Hc. rewrite Hc.
  destruct code as [|p code]; [done|]. simpl.
  unfold before_exec, debug_line, fetching_status.
  destruct (debug_mode (self s1)); simpl; rewrite <- ?app_assoc; simpl;
  (destruct (execute_code w (p :: code) _) as [[result|e] s2]; [|done]);
  unfold show_result, error_panel, remember; destruct result; simpl;
    rewrite <- ?app_assoc; try done.
  all: by destruct (contains _ _).
Qed.

End RunFacts.

(** ** [call_deepseek] as a function of the endpoint's answer *)

Section CallSummary.

Variable w : world.

Lemma read_choices_raises_Exception (j : json) (e : py_exception) :
  read_choices j = Raise e -> exc_is_Exception e = true.
Proof.
  intros H. destruct (first_choice_content j) as [text|] eqn:Hj.
  - rewrite (read_choices_content j text Hj) in H. discriminate.
  - destruct (read_choices_no_content j Hj) as [H' | [e' [H' He]]]; congruence.
Qed.

Lemma call_deepseek_eq (prompt : pystr) (s : state) :
  let key := deepseek_api_key (self s) in
  let o := requests_post w key prompt in
  call_deepseek w prompt s =
    (Ok (classification o),
     mk_state (self s) (log s ++ HttpPost key prompt :: classification_log o)).
Proof.
  unfold call_deepseek, try_except, post_json, get_self, emit, lift, raise.
  unfold mbind, M_bind, mret, M_ret, console_print, emit. simpl.
  destruct (requests_post w (deepseek_api_key (self s)) prompt) as [msg|st [msg|j]]; simpl.
  - by rewrite <- app_assoc.
  - by rewrite <- app_assoc.
  - destruct (read_choices j) as [r|e] eqn:Hr; [done|].
    rewrite (read_choices_raises_Exception j e Hr). simpl. by rewrite <- app_assoc.
Qed.

Lemma classification_log_no_exec (o : post_outcome) :
  forallb (fun ev => negb (is_exec_call ev)) (classification_log o) = true.
Proof.
  destruct o as [msg|st [msg|j]]; simpl; try done. by destruct (read_choices j).
Qed.

Lemma classification_fails (o : post_outcome) :
  call_fails o = true -> classification o = (None, None).
Proof.
  destruct o as [msg|st [msg|j]]; simpl; try done.
  intros Hf. apply negb_true_iff in Hf.
  destruct (first_choice_content j) as [text|] eqn:Hj.
  - apply first_choice_nonempty in Hj. congruence.
  - destruct (read_choices_no_content j Hj) as [-> | [e [-> He]]]; done.
Qed.

(** [query] after its first step. *)
Lemma query_call (nl : pystr) (s : state) :
  let key := deepseek_api_key (self s) in
  let o := requests_post w key nl in
  call_deepseek w nl (mk_state (self s) (log s ++ [analysing_status])) =
    (Ok (classification o),
     mk_state (self s)
       (log s ++ [analysing_status; HttpPost key nl] ++ classification_log o)).
Proof.
  intros key o. rewrite call_deepseek_eq. simpl. by rewrite <- app_assoc.
Qed.

(** A failed remote call leaves the instance as it was and prints the
    failure panel, with no evaluation. *)
Lemma query_fails_run (nl : pystr) (s : state) :
  let key := deepseek_api_key (self s) in
  let o := requests_post w key nl in
  call_fails o = true ->
  query w nl s =
    (Ok tt, mk_state (self s)
              (log s ++ ([analysing_status; HttpPost key nl] ++ classification_log o)
                 ++ [failure_panel])).
Proof.
  intros key o Hf.
  pose proof (query_call nl s) as Hc. cbv zeta in Hc. fold key o in Hc.
  rewrite (classification_fails o Hf) in Hc.
  rewrite (query_unrecognized w nl s _ None None Hc) by reflexivity.
  simpl. by rewrite <- !app_assoc.
Qed.

End CallSummary.

(** ** Dispatch *)

Section Dispatch.

Variable w : world.


(** C8, amended. When [call_deepseek] answers ["explain"] with a
    non-empty payload [P], [query] prints [P] unchanged in the answer
    panel, clears the last result, and evaluates nothing. *)
Theorem query_explain_shows_payload (nl : pystr) (s : state) (P : pystr) :
  fst (call_deepseek w nl s) = Ok (Some (py "explain"), Some P) ->
  P <> [] ->
  exists evs,
    query w nl s =
      (Ok tt, mk_state (remember (self s) VNone (last_query (self s)))
                (log s ++ evs ++ [answer_panel P])) /\
    no_evaluation evs = true.
Proof.
  intros Hc HP. rewrite call_deepseek_eq in Hc. cbv zeta in Hc. simpl in Hc.
  injection Hc as Hc.
  pose proof (query_call w nl s) as Hq. cbv zeta in Hq. rewrite Hc in Hq.
  exists ([analysing_status; HttpPost (deepseek_api_key (self s)) nl]
            ++ classification_log (requests_post w (deepseek_api_key (self s)) nl)).
  split.
  - rewrite (query_explain w nl s _ P Hq HP). cbn [self log].
    rewrite <- !app_assoc. reflexivity.
  - cbn [app]. unfold no_evaluation. cbn [forallb is_exec_call analysing_status negb andb].
    apply classification_log_no_exec.
Qed.


End Dispatch.

(** *** Runs of the dispatch *)



Lemma query_explain_shows_payload_witness :
  exists evs,
    query (replying (py "EXPLAIN|市盈率是股价与每股收益的比率")) (py "什么是市盈率？") fresh
      = (Ok tt, mk_state (remember (self fresh) VNone (last_query (self fresh)))
                  (log fresh ++ evs ++ [answer_panel (py "市盈率是股价与每股收益的比率")])) /\
    no_evaluation evs = true.
Proof.
  apply (query_explain_shows_payload (replying (py "EXPLAIN|市盈率是股价与每股收益的比率"))
           (py "什么是市盈率？") fresh (py "市盈率是股价与每股收益的比率")).
  - vm_compute. reflexivity.
  - vm_compute. discriminate.
Defined.

(** A bare [EXPLAIN|]: the classification is an explanation with the empty
    payload, and [query] prints the failure panel, not the payload. *)
Lemma empty_explanation_not_shown :
  fst (call_deepseek (replying (py "EXPLAIN|")) (py "q") fresh)
    = Ok (Some (py "explain"), Some []) /\
  log (snd (query (replying (py "EXPLAIN|")) (py "q") fresh))
    = [analysing_status; HttpPost (py "sk-key") (py "q"); failure_panel].
Proof.
  split; vm_compute; reflexivity.
Qed.


(** ** The last result and [save_result] *)

Section LastResult.

Variable w : world.




(** After a failed remote call the last result is what it was before. *)
Lemma last_result_after_failure (nl : pystr) (s : state) :
  call_fails (requests_post w (deepseek_api_key (self s)) nl) = true ->
  self (snd (query w nl s)) = self s.
Proof. intros Hf. by rewrite query_fails_run. Qed.

End LastResult.

(** C9, where the code departs from it. A query answered with a table,
    then a query whose remote call fails: the second query is classified
    [(None, None)], yet the last result is still the table of the first,
    and [save_result] writes it to a file instead of reporting that there
    is nothing to save. *)
Theorem stale_result_after_unrecognized :
  let s1 := snd (query one_question (py "index 10") fresh) in
  let s2 := snd (query one_question (py "what?") s1) in
  last_result (self s1) = VDataFrame one_row /\
  fst (call_deepseek one_question (py "what?") s1) = Ok (None, None) /\
  last_result (self s2) = VDataFrame one_row /\
  snd (save_result one_question None s2) =
    mk_state (self s2)
      (log s2 ++
         [ToCsv (py "data/index 10_20250101_093000.csv") one_row;
          ConsolePrint
            (RText (py "[green]✓ 数据已保存到: /app/data/index 10_20250101_093000.csv[/green]"))]).
Proof.
  cbv zeta. repeat split; vm_compute; reflexivity.
Qed.

(** ** Empty payloads *)

Section EmptyPayload.




Lemma rstrip_strip (text : pystr) : rstrip (strip text) = strip text.
Proof. unfold strip. apply rstrip_idem. Qed.


Variable w : world.


End EmptyPayload.



(** ** The namespace of the evaluation *)

Section Names.






Variable w : world.



End Names.

Section Evaluate.

Variable w : world.







(** C2, amended. When the evaluation ends by itself or raises an
    exception that derives from [Exception] (a [NameError] for an
    undefined name, for one), [execute_code] returns to its caller:
    the binding of [result], or [None] when there is none, in the first
    case; the string ["执行出错: " + str(e)], which is not empty, in the
    second. *)
Theorem execute_code_returns (code : pystr) (s : state) :
  let o := py_exec w (exec_source code) (module_globals w) local_vars in
  ends_within_Exception o = true ->
  exists v,
    fst (execute_code w code s) = Ok v /\
    match o with
    | ExecDone l' => v = default VNone (l' !! py "result")
    | ExecRaised e => v = VStr (execution_error e) /\ execution_error e <> []
    end.
Proof.
  intros o Ho. rewrite execute_code_run. cbv zeta. fold o.
  destruct o as [l'|e]; cbn [ends_within_Exception] in Ho.
  - eexists. split; reflexivity.
  - rewrite Ho. eexists. split; [reflexivity|].
    split; [reflexivity | apply execution_error_nonempty].
Qed.

End Evaluate.

(** *** Runs of the evaluation *)



(** The expression [__import__('sys').exit()] raises [SystemExit], which
    [except Exception] lets through: [execute_code] raises to its caller. *)
Lemma system_exit_propagates :
  python_exec (exec_source (py "__import__('sys').exit()"))
      (module_globals python_world) local_vars
    = Some (ExecRaised (SystemExit [])) /\
  fst (execute_code python_world (py "__import__('sys').exit()") fresh)
    = Raise (SystemExit []).
Proof.
  split; vm_compute; reflexivity.
Qed.

Lemma execute_code_returns_witness :
  exists v,
    fst (execute_code python_world (py "undefined_name") fresh) = Ok v /\
    match py_exec python_world (exec_source (py "undefined_name"))
            (module_globals python_world) local_vars with
    | ExecDone l' => v = default VNone (l' !! py "result")
    | ExecRaised e => v = VStr (execution_error e) /\ execution_error e <> []
    end.
Proof.
  apply (execute_code_returns python_world (py "undefined_name") fresh).
  vm_compute. reflexivity.
Defined.

(** The undefined name, run: the error string names it. *)
Example undefined_name_error :
  fst (execute_code python_world (py "undefined_name") fresh)
    = Ok (VStr (py "执行出错: name 'undefined_name' is not defined")).
Proof. vm_compute. reflexivity. Qed.

(** * Further properties *)

(** ** [call_deepseek], whatever the endpoint does *)

Section CallAlways.

Variable w : world.

Lemma strip_idem (s : pystr) : strip (strip s) = strip s.
Proof.
  unfold strip at 1. rewrite <- lstrip_rstrip_comm, rstrip_strip.
  unfold strip. rewrite <- lstrip_rstrip_comm. unfold lstrip. apply drop_spaces_idem.
Qed.

(** A tagged reply has one of the two kinds, and a payload with nothing
    left to trim. *)
Lemma tag_content_trimmed (content kind payload : pystr) :
  strip content = content ->
  tag_content content = (Some kind, Some payload) ->
  (kind = py "code" \/ kind = py "explain") /\ strip payload = payload.
Proof.
  intros Hs. unfold tag_content.
  destruct (startswith content (py "CODE|")).
  { intros [= <- <-]. split; [by left | apply strip_idem]. }
  destruct (startswith content (py "EXPLAIN|")).
  { intros [= <- <-]. split; [by right | apply strip_idem]. }
  intros [= <- <-]. split; [by left | done].
Qed.

Lemma tag_content_some (content : pystr) :
  exists kind payload, tag_content content = (Some kind, Some payload).
Proof.
  unfold tag_content.
  destruct (startswith content (py "CODE|")); [eauto|].
  destruct (startswith content (py "EXPLAIN|")); eauto.
Qed.

(** The classification is [(None, None)], or the tagging of the trimmed
    text of the first choice. *)
Lemma classification_cases (o : post_outcome) :
  (classification o = (None, None) /\
   forall st j text, o = Responds st (Json j) -> first_choice_content j <> Some text) \/
  (exists st j text,
      o = Responds st (Json j) /\ first_choice_content j = Some text /\
      classification o = tag_content (strip text)).
Proof.
  destruct o as [msg|st [msg|j]]; simpl; try (left; split; [done | congruence]).
  destruct (first_choice_content j) as [text|] eqn:Hj.
  - right. exists st, j, text. by rewrite (read_choices_content j text Hj).
  - left. split.
    + destruct (read_choices_no_content j Hj) as [-> | [e [-> He]]]; done.
    + intros st' j' text [= _ <-]. congruence.
Qed.


(** X2. [call_deepseek] returns a classification other than
    [(None, None)] exactly when a response arrives whose body decodes to
    JSON in which [choices[0].message.content] exists and is a string. *)
Theorem call_deepseek_classifies_iff (prompt : pystr) (s : state) :
  fst (call_deepseek w prompt s) <> Ok (None, None) <->
  exists st j text,
    requests_post w (deepseek_api_key (self s)) prompt = Responds st (Json j) /\
    first_choice_content j = Some text.
Proof.
  rewrite call_deepseek_eq. cbv zeta. cbn [fst].
  destruct (classification_cases (requests_post w (deepseek_api_key (self s)) prompt))
    as [[Hn Hno] | (st & j & text & Ho & Hj & Ht)].
  - rewrite Hn. split; [done|]. intros (st & j & text & Ho & Hj). by destruct (Hno st j text).
  - split; [eauto|]. intros _. rewrite Ht.
    destruct (tag_content_some (strip text)) as (kind & payload & ->). discriminate.
Qed.

(** X3. A payload returned by [call_deepseek] has no whitespace at either
    end, and comes with the kind ["code"] or ["explain"]. *)
Theorem call_deepseek_payload_trimmed (prompt : pystr) (s : state) (kind payload : pystr) :
  fst (call_deepseek w prompt s) = Ok (Some kind, Some payload) ->
  (kind = py "code" \/ kind = py "explain") /\ strip payload = payload.
Proof.
  rewrite call_deepseek_eq. cbv zeta. cbn [fst]. intros [= Hc].
  destruct (classification_cases (requests_post w (deepseek_api_key (self s)) prompt))
    as [[Hn _] | (st & j & text & _ & _ & Ht)]; [congruence|].
  rewrite Ht in Hc. by apply (tag_content_trimmed (strip text) kind payload (strip_idem text)).
Qed.

End CallAlways.

Lemma call_deepseek_payload_trimmed_witness :
  (py "code" = py "code" \/ py "code" = py "explain") /\
  strip (py "ak.fund_name_em()") = py "ak.fund_name_em()".
Proof.
  apply (call_deepseek_payload_trimmed (replying (py "  CODE|  ak.fund_name_em()  "))
           (py "q") fresh (py "code") (py "ak.fund_name_em()")).
  vm_compute. reflexivity.
Defined.

(** ** [query], case by case *)

Section QueryCases.

Variable w : world.

Lemma count_events_app (f : event -> bool) (a b : list event) :
  count_events f (a ++ b) = (count_events f a + count_events f b)%nat.
Proof. unfold count_events. by rewrite List.filter_app, length_app. Qed.

Lemma classification_kinds (o : post_outcome) :
  classification o = (None, None) \/
  exists kind payload,
    classification o = (Some kind, Some payload) /\ (kind = py "code" \/ kind = py "explain").
Proof.
  destruct (classification_cases o) as [[Hn _] | (st & j & text & _ & _ & Ht)]; [by left|].
  right. destruct (tag_content_some (strip text)) as (kind & payload & Hk).
  exists kind, payload. rewrite Ht. split; [done|].
  by apply (tag_content_trimmed (strip text) kind payload (strip_idem text)).
Qed.

Lemma query_run (nl : pystr) (s : state) : query w nl s = query_outcome w nl s.
Proof.
  unfold query_outcome. cbv zeta.
  pose proof (query_call w nl s) as Hq. cbv zeta in Hq.
  fold (after_call w nl s) in Hq.
  destruct (classification_kinds (requests_post w (deepseek_api_key (self s)) nl))
    as [Hn | (kind & payload & Hk & Hkind)].
  - rewrite Hn in *. by rewrite (query_unrecognized w nl s _ None None Hq).
  - rewrite Hk in *. destruct payload as [|c code].
    + rewrite (query_unrecognized w nl s _ _ _ Hq); [done|]. by destruct kind.
    + destruct Hkind as [-> | ->].
      * rewrite bool_decide_eq_false_2 by (vm_compute; discriminate).
        by rewrite (query_code w nl s _ (c :: code) Hq).
      * rewrite bool_decide_eq_true_2 by done.
        by rewrite (query_explain w nl s _ (c :: code) Hq).
Qed.




End QueryCases.

(** ** [save_result], case by case *)

Section SaveCases.

Variable w : world.

Lemma save_result_run (filename : option pystr) (s : state) :
  save_result w filename s =
    (match snd (save_trace w filename (self s)) with
     | None => Ok tt
     | Some e => Raise e
     end,
     mk_state (self s) (log s ++ fst (save_trace w filename (self s)))).
Proof.
  unfold save_result, save_trace, save_caught, save_name, save_path, clean_query,
    saved_line, save_failed_line, no_data_warning.
  unfold try_except, get_self, console_print, emit, raise.
  unfold mbind, M_bind, mret, M_ret.
  destruct s as [me lg]. cbv beta zeta. cbn [self log]. unfold pystr in *.
  destruct (last_result me) eqn:Hr; [reflexivity|..].
  all: destruct (path_exists w (py "data")); cbv beta iota zeta; cbn [self log];
    [|destruct (makedirs w (py "data")) as [e|]; cbv beta iota zeta; cbn [self log];
      [destruct (exc_is_Exception e); cbn [fst snd]; rewrite <- ?app_assoc; reflexivity|]].
  all: destruct filename as [f|]; cbv beta iota zeta; cbn [self log];
    [|destruct (last_query me) as [q|]; cbv beta iota zeta; cbn [self log];
      [|cbn [exc_is_Exception TypeError fst snd]; rewrite <- ?app_assoc; reflexivity]].
  all: match goal with
       | |- context [write_file w ?p] => destruct (write_file w p) as [e|]
       end; cbv beta iota zeta; cbn [self log fst snd];
       [destruct (exc_is_Exception e)|]; cbn [fst snd self log];
       rewrite <- ?app_assoc; reflexivity.
Qed.

End SaveCases.

(** ** What [save_result] writes, and where *)

Section SaveFacts.

Variable w : world.









End SaveFacts.

(** ** From [query] to [save_result] *)

Section QueryThenSave.

Variable w : world.

Lemma classified_as (nl : pystr) (s : state) (r : option pystr * option pystr) :
  fst (call_deepseek w nl s) = Ok r ->
  classification (requests_post w (deepseek_api_key (self s)) nl) = r.
Proof. rewrite call_deepseek_eq. cbv zeta. cbn [fst]. congruence. Qed.

(** [query] on code whose evaluation ends by itself. *)
Lemma query_code_done (nl : pystr) (s : state) (code : pystr) (l' : namespace) :
  fst (call_deepseek w nl s) = Ok (Some (py "code"), Some code) ->
  code <> [] ->
  py_exec w (exec_source code) (module_globals w) local_vars = ExecDone l' ->
  query w nl s =
    (Ok tt, show_result nl (default VNone (l' !! py "result")) (after_exec w nl code s)).
Proof.
  intros Hc Hcode Hexec. apply classified_as in Hc.
  rewrite query_run. unfold query_outcome. cbv zeta. rewrite Hc.
  destruct code as [|c code]; [done|].
  rewrite bool_decide_eq_false_2 by (vm_compute; discriminate).
  rewrite execute_code_run. cbv zeta. by rewrite Hexec.
Qed.

(** [query] on code whose evaluation raises. *)
Lemma query_code_raised (nl : pystr) (s : state) (code : pystr) (e : py_exception) :
  fst (call_deepseek w nl s) = Ok (Some (py "code"), Some code) ->
  code <> [] ->
  py_exec w (exec_source code) (module_globals w) local_vars = ExecRaised e ->
  query w nl s =
    if exc_is_Exception e
    then (Ok tt, show_result nl (VStr (execution_error e)) (after_exec w nl code s))
    else (Raise e, after_exec w nl code s).
Proof.
  intros Hc Hcode Hexec. apply classified_as in Hc.
  rewrite query_run. unfold query_outcome. cbv zeta. rewrite Hc.
  destruct code as [|c code]; [done|].
  rewrite bool_decide_eq_false_2 by (vm_compute; discriminate).
  rewrite execute_code_run. cbv zeta. rewrite Hexec. by destruct (exc_is_Exception e).
Qed.

Lemma show_result_data (nl : pystr) (result : pyval) (s2 : state) :
  is_data result = true ->
  self (show_result nl result s2) = remember (self s2) result (Some nl).
Proof.
  unfold show_result, is_data. destruct result; try done.
  intros H. apply negb_true_iff in H. by rewrite H.
Qed.

(** X7. What [query] shows as data is what [save_result] saves. When a
    code query evaluates to a result that is not [None] and not a marked
    error string, the instance remembers the result and the query; a
    [save_result] without a name, in a world where the [data] folder
    exists and the write succeeds, then writes that result, a table with
    [to_csv] and anything else as text, to the file named after the query
    and the time, and reports the path. *)
Theorem query_then_save (nl : pystr) (s : state) (code : pystr) (l' : namespace) :
  fst (call_deepseek w nl s) = Ok (Some (py "code"), Some code) ->
  code <> [] ->
  py_exec w (exec_source code) (module_globals w) local_vars = ExecDone l' ->
  is_data (default VNone (l' !! py "result")) = true ->
  path_exists w (py "data") = true ->
  (forall path, write_file w path = None) ->
  let result := default VNone (l' !! py "result") in
  let s1 := snd (query w nl s) in
  let path := save_path (clean_query w nl ++ py "_" ++ now_strftime w ++ py ".csv") in
  last_result (self s1) = result /\
  last_query (self s1) = Some nl /\
  save_result w None s1 =
    (Ok tt, mk_state (self s1) (log s1 ++ [file_event path result; saved_line w path])).
Proof.
  intros Hc Hcode Hexec Hdata Hdir Hwrite result s1 path.
  assert (Hself : self s1 = remember (self s) result (Some nl)).
  { unfold s1. rewrite (query_code_done nl s code l' Hc Hcode Hexec). cbn [snd].
    by rewrite (show_result_data nl _ _ Hdata). }
  split; [by rewrite Hself|]. split; [by rewrite Hself|].
  rewrite save_result_run. unfold save_trace. rewrite Hself. cbn [last_result last_query remember].
  fold result. rewrite Hdir. cbn [save_name]. fold path. rewrite (Hwrite path).
  unfold is_data in Hdata. fold result in Hdata.
  destruct result; try done.
Qed.


(** X9. [query] keeps this about the instance: when it has a last result
    it has a last query, so that [save_result] always finds the query its
    default file name is made of. *)
Theorem query_keeps_query_for_result (nl : pystr) (s : state) :
  has_query_for_result (self s) = true ->
  has_query_for_result (self (snd (query w nl s))) = true.
Proof.
  intros Hinv. rewrite query_run. unfold query_outcome. cbv zeta.
  destruct (classification _) as [[kind|] [[|c code]|]]; try done.
  destruct (bool_decide (kind = py "explain")); [done|].
  rewrite execute_code_run. cbv zeta.
  assert (Hshow : forall result s2,
            has_query_for_result (self (show_result nl result s2)) = true).
  { intros result s2. unfold show_result, has_query_for_result.
    destruct result; try done. by destruct (contains _ _). }
  destruct (py_exec w _ _ _) as [l'|e]; [apply Hshow|].
  destruct (exc_is_Exception e); [apply Hshow | done].
Qed.


End QueryThenSave.

Section DefaultName.

Variable w : world.


End DefaultName.

(** *** Runs *)



Lemma query_then_save_witness :
  let result := default VNone (<[py "result" := VDataFrame one_row]> local_vars !! py "result") in
  let s1 := snd (query one_question (py "index 10") fresh) in
  let path :=
    save_path (clean_query one_question (py "index 10") ++ py "_"
                 ++ now_strftime one_question ++ py ".csv") in
  last_result (self s1) = result /\
  last_query (self s1) = Some (py "index 10") /\
  save_result one_question None s1 =
    (Ok tt, mk_state (self s1) (log s1 ++ [file_event path result; saved_line one_question path])).
Proof.
  apply (query_then_save one_question (py "index 10") fresh
           (py "ak.stock_zh_index_daily().tail(10)")
           (<[py "result" := VDataFrame one_row]> local_vars)).
  - vm_compute. reflexivity.
  - vm_compute. discriminate.
  - reflexivity.
  - rewrite lookup_insert_eq. reflexivity.
  - reflexivity.
  - reflexivity.
Defined.


Lemma query_keeps_query_for_result_witness :
  has_query_for_result (self (snd (query one_question (py "index 10") holding_table))) = true.
Proof.
  apply (query_keeps_query_for_result one_question (py "index 10") holding_table).
  reflexivity.
Defined.


(** ** The table [format_dataframe] builds *)

Section TableFacts.

Context {L : Type} `{EqDecision L}.

(** Rows whose labels are not the marked one are shown as they are. *)
Lemma rows_without_mark (show : bool) (mark : option L) (dots : list pystr * bool)
    (labels : list L) (rows : list (list pystr)) :
  length labels = length rows ->
  (show = false \/ forall idx, idx ∈ labels -> Some idx <> mark) ->
  flat_map
    (fun '(idx, row) =>
       (row, false) :: (if show && bool_decide (Some idx = mark) then [dots] else []))
    (zip labels rows)
  = map plain_row rows.
Proof.
  revert rows. induction labels as [|idx labels IH]; intros [|row rows] Hlen Hmark;
    try done.
  cbn [zip zip_with flat_map map]. rewrite IH.
  - destruct Hmark as [-> | Hmark]; [done|].
    rewrite (bool_decide_eq_false_2 (Some idx = mark)) by (apply Hmark; left).
    by rewrite andb_false_r.
  - by injection Hlen.
  - destruct Hmark as [-> | Hmark]; [by left | right].
    intros i Hi. apply Hmark. by right.
Qed.

(** X12. A frame of at most [max_rows] rows is shown whole: the table has
    the frame's columns and its rows, in order, and no row of dots. *)
Theorem format_dataframe_small (index : list L) (df : dataframe) (max_rows : nat) :
  length index = length (df_rows df) ->
  (length (df_rows df) <= max_rows)%nat ->
  format_dataframe index df max_rows = mk_table (df_columns df) (map plain_row (df_rows df)).
Proof.
  intros Hlen Hsmall. unfold format_dataframe. cbv zeta.
  rewrite bool_decide_eq_false_2 by lia. f_equal.
  apply rows_without_mark; [done | by left].
Qed.



End TableFacts.

Lemma format_dataframe_small_witness :
  format_dataframe [0%nat; 1%nat; 2%nat] three_rows 10
    = mk_table (df_columns three_rows) (map plain_row (df_rows three_rows)).
Proof.
  apply (format_dataframe_small [0%nat; 1%nat; 2%nat] three_rows 10).
  - reflexivity.
  - simpl. lia.
Defined.



(** ** The prompt loop *)

Section LoopFacts.

Variable w : world.
Variable py_lower : pystr -> pystr.




(** X17. When the read fails each time with the same exception deriving
    from [Exception] (the end of the input, for one), the loop prints one
    error line per read and goes on asking: it does not stop, and the
    instance stays as it is. *)
Theorem main_loop_failed_reads (e : py_exception) (n : nat) (s : state) :
  exc_is_Exception e = true ->
  is_KeyboardInterrupt e = false ->
  main_loop w py_lower (replicate n (Raise e)) s =
    (Ok AwaitingInput, mk_state (self s) (log s ++ replicate n (loop_error_line e))).
Proof.
  intros Hx Hk. revert s. induction n as [|n IH]; intros s.
  - cbn. rewrite app_nil_r. by destruct s.
  - cbn [replicate main_loop]. unfold mbind, M_bind.
    unfold loop_turn, loop_body, lift. unfold mbind at 1, M_bind at 1.
    rewrite Hk, Hx. unfold console_print, emit, mbind, M_bind, mret, M_ret.
    rewrite IH. cbn [self log]. by rewrite <- app_assoc.
Qed.

(** The events [save_result] adds are no requests and no evaluations. *)
Lemma save_trace_local (filename : option pystr) (me : NLDataQuery) :
  count_events is_http_post (fst (save_trace w filename me)) = 0%nat /\
  count_events is_exec_call (fst (save_trace w filename me)) = 0%nat.
Proof.
  unfold save_trace, save_caught.
  destruct (last_result me); [done|..].
  all: destruct (path_exists w (py "data"));
    [|destruct (makedirs w (py "data")) as [e|]; [by destruct (exc_is_Exception e)|]].
  all: destruct (save_name w filename (last_query me)) as [nm|e];
    [|by destruct (exc_is_Exception e)].
  all: destruct (write_file w (save_path nm)) as [e|]; [by destruct (exc_is_Exception e)|done].
Qed.

(** One turn on a line that is no query. *)
Lemma loop_turn_command (line : outcome pystr) (s : state) :
  is_command py_lower line = true ->
  exists evs,
    log (snd (loop_turn w py_lower line s)) = log s ++ evs /\
    count_events is_http_post evs = 0%nat /\
    count_events is_exec_call evs = 0%nat /\
    deepseek_api_key (self (snd (loop_turn w py_lower line s))) = deepseek_api_key (self s) /\
    last_result (self (snd (loop_turn w py_lower line s))) = last_result (self s) /\
    last_query (self (snd (loop_turn w py_lower line s))) = last_query (self s).
Proof.
  intros Hcmd. unfold loop_turn, loop_body, lift, mbind, M_bind.
  destruct line as [raw|e]; cbn beta iota.
  - cbn [is_command] in Hcmd.
    destruct (bool_decide (strip raw = [])).
    { exists []. cbn. by rewrite app_nil_r. }
    destruct (bool_decide (py_lower (strip raw) ∈ [py "exit"; py "quit"; py "退出"])).
    { exists [ConsolePrint (RText ([10] ++ goodbye))]. cbn. repeat split. }
    destruct (bool_decide (py_lower (strip raw) = py "debug")).
    { exists [ConsolePrint
                (RText (py "[yellow]调试模式已"
                          ++ (if negb (debug_mode (self s)) then py "开启" else py "关闭")
                          ++ py "[/yellow]" ++ [10]))].
      cbn. repeat split. }
    destruct (bool_decide (py_lower (strip raw) = py "save")); [|done].
    rewrite save_result_run.
    destruct (save_trace_local None (self s)) as [Hp He].
    destruct (snd (save_trace w None (self s))) as [e|].
    + destruct (is_KeyboardInterrupt e); [|destruct (exc_is_Exception e)].
      * exists (fst (save_trace w None (self s))
                  ++ [ConsolePrint (RText ([10; 10] ++ goodbye))]).
        cbn. rewrite <- ?app_assoc, !count_events_app, Hp, He. repeat split.
      * exists (fst (save_trace w None (self s)) ++ [loop_error_line e]).
        cbn. rewrite <- ?app_assoc, !count_events_app, Hp, He. repeat split.
      * exists (fst (save_trace w None (self s))). cbn. rewrite Hp, He. repeat split.
    + exists (fst (save_trace w None (self s)) ++ [ConsolePrint (RText [])]).
      cbn. rewrite <- ?app_assoc, !count_events_app, Hp, He. repeat split.
  - destruct (is_KeyboardInterrupt e); [|destruct (exc_is_Exception e)].
    + exists [ConsolePrint (RText ([10; 10] ++ goodbye))]. cbn. repeat split.
    + exists [loop_error_line e]. cbn. repeat split.
    + exists []. cbn. by rewrite app_nil_r.
Qed.

(** X18. Lines that are no query (failed reads, blank lines, [exit],
    [quit], [退出], [debug], [save], in any case the lower-casing maps to
    them) never reach the model or the evaluator: the loop sends no
    request and evaluates nothing on them, and keeps the key, the last
    result and the last query of the instance. *)
Theorem main_loop_commands_local (inputs : list (outcome pystr)) (s : state) :
  forallb (is_command py_lower) inputs = true ->
  exists evs,
    log (snd (main_loop w py_lower inputs s)) = log s ++ evs /\
    count_events is_http_post evs = 0%nat /\
    count_events is_exec_call evs = 0%nat /\
    deepseek_api_key (self (snd (main_loop w py_lower inputs s))) = deepseek_api_key (self s) /\
    last_result (self (snd (main_loop w py_lower inputs s))) = last_result (self s) /\
    last_query (self (snd (main_loop w py_lower inputs s))) = last_query (self s).
Proof.
  revert s. induction inputs as [|line inputs IH]; intros s Hall.
  { exists []. cbn. by rewrite app_nil_r. }
  cbn [forallb] in Hall. apply andb_true_iff in Hall as [Hline Hrest].
  destruct (loop_turn_command line s Hline) as (evs & Hl & Hp & He & Hk & Hr & Hq).
  cbn [main_loop]. unfold mbind, M_bind.
  destruct (loop_turn w py_lower line s) as [[[|]|e] s'] eqn:Ht; cbn [snd] in *.
  - exists evs. done.
  - destruct (IH s' Hrest) as (evs' & Hl' & Hp' & He' & Hk' & Hr' & Hq').
    exists (evs ++ evs'). rewrite Hl', Hl, Hk', Hr', Hq', <- app_assoc.
    rewrite !count_events_app, Hp, He, Hp', He'. done.
  - exists evs. done.
Qed.

End LoopFacts.


Lemma main_loop_failed_reads_witness :
  main_loop python_world ascii_lower (replicate 2 (Raise end_of_input)) fresh =
    (Ok AwaitingInput,
     mk_state (self fresh) (log fresh ++ replicate 2 (loop_error_line end_of_input))).
Proof.
  apply (main_loop_failed_reads python_world ascii_lower end_of_input 2 fresh);
    vm_compute; reflexivity.
Defined.

Lemma main_loop_commands_local_witness :
  exists evs,
    log (snd (main_loop python_world ascii_lower
                [Ok (py "  "); Ok (py "DEBUG"); Ok (py "save"); Raise end_of_input;
                 Ok (py " Quit ")] fresh))
      = log fresh ++ evs /\
    count_events is_http_post evs = 0%nat /\
    count_events is_exec_call evs = 0%nat /\
    deepseek_api_key
      (self (snd (main_loop python_world ascii_lower
                    [Ok (py "  "); Ok (py "DEBUG"); Ok (py "save"); Raise end_of_input;
                     Ok (py " Quit ")] fresh)))
      = deepseek_api_key (self fresh) /\
    last_result
      (self (snd (main_loop python_world ascii_lower
                    [Ok (py "  "); Ok (py "DEBUG"); Ok (py "save"); Raise end_of_input;
                     Ok (py " Quit ")] fresh)))
      = last_result (self fresh) /\
    last_query
      (self (snd (main_loop python_world ascii_lower
                    [Ok (py "  "); Ok (py "DEBUG"); Ok (py "save"); Raise end_of_input;
                     Ok (py " Quit ")] fresh)))
      = last_query (self fresh).
Proof.
  apply (main_loop_commands_local python_world ascii_lower
           [Ok (py "  "); Ok (py "DEBUG"); Ok (py "save"); Raise end_of_input;
            Ok (py " Quit ")] fresh).
  vm_compute. reflexivity.
Defined.

(** ** The two versions of [query] *)

Section Versions.

Variable w : world.






End Versions.
